(** * icefall: batched transducer inference and the MUCS fbank cache

    A shallow embedding of

    - [egs/librispeech/ASR/transducer/pretrained.py]    (module [Pretrained])
    - [egs/mucs/ASR/local/compute_fbank_mucs.py]        (module [ComputeFbankMucs])

    Both scripts are glue around external capabilities (torchaudio,
    kaldifeat, the transducer networks, sentencepiece, lhotse).  Those are
    the fields of a class [Externals] per script; what is embedded is the
    control flow of the scripts themselves: the order of the calls, the
    values handed to them, the exceptions raised and the records logged. *)

From Stdlib Require Import ZArith List String Ascii PrimFloat Lia.
From stdpp Require Import base tactics option list strings pretty gmap.

Local Open Scope Z_scope.

(** ** Python exceptions and the trace monad shared by both scripts *)

Inductive exn : Type :=
| AssertionError (msg : string)
| ValueError (msg : string)
| IndexError
| TypeError
| KeyError (key : string)
| RuntimeError (msg : string)
| External (msg : string).

Inductive result (A : Type) : Type :=
| Ok (a : A)
| Raise (e : exn).
Arguments Ok {A} a.
Arguments Raise {A} e.

(** A computation leaves the events it performed, in program order, and
    either a value or the exception that stopped it. *)
Definition run (E A : Type) : Type := (list E * result A)%type.

Definition ret {E A} (a : A) : run E A := ([], Ok a).

Definition bind {E A B} (m : run E A) (k : A -> run E B) : run E B :=
  match m with
  | (t, Ok a) => let (t', r) := k a in (t ++ t', r)
  | (t, Raise e) => (t, Raise e)
  end.

Definition emit {E} (e : E) : run E unit := ([e], Ok tt).
Definition raise {E A} (e : exn) : run E A := ([], Raise e).
Definition lift {E A} (r : result A) : run E A := ([], r).

Definition trace {E A} (m : run E A) : list E := fst m.
Definition outcome {E A} (m : run E A) : result A := snd m.

Notation "'let!' x ':=' m 'in' k" := (bind m (fun x => k))
  (at level 10, x name, m at level 200, k at level 200, only parsing).
Notation "'do!' m 'in' k" := (bind m (fun _ => k))
  (at level 10, m at level 200, k at level 200, only parsing).

(** The line feed of the Python literals. *)
Definition nl : string := String "010"%char EmptyString.

(** ** transducer/pretrained.py *)

Module Pretrained.

(** A 2-D float tensor of shape [(length rows, dim)] and a 3-D one of shape
    [(length data, size1, size2)]. *)
Record Tensor2 : Type := { t2_dim : nat; t2_rows : list (list float) }.

Record Tensor3 : Type :=
  { t3_size1 : nat; t3_size2 : nat; t3_data : list (list (list float)) }.

Definition size0 (t : Tensor2) : nat := length (t2_rows t).
Definition batch_size (t : Tensor3) : nat := length (t3_data t).

(** Command line of [get_parser]. *)
Record Args : Type :=
  { checkpoint : string;
    bpe_model : option string;
    method : string;
    sound_files : list string;
    beam_size : Z }.

(** The dictionary of [get_params] (without [env_info]). *)
Record ModelParams : Type :=
  { sample_rate : Z;
    feature_dim : Z;
    encoder_out_dim : Z;
    subsampling_factor : Z;
    attention_dim : Z;
    nhead : Z;
    dim_feedforward : Z;
    num_encoder_layers : Z;
    vgg_frontend : bool;
    decoder_embedding_dim : Z;
    num_decoder_layers : Z;
    decoder_hidden_dim : Z }.

Definition get_params : ModelParams :=
  {| sample_rate := 16000;
     feature_dim := 80;
     encoder_out_dim := 512;
     subsampling_factor := 4;
     attention_dim := 512;
     nhead := 8;
     dim_feedforward := 2048;
     num_encoder_layers := 12;
     vgg_frontend := false;
     decoder_embedding_dim := 1024;
     num_decoder_layers := 2;
     decoder_hidden_dim := 512 |}.

(** [params.update(vars(args))]: no key of the command line collides with a
    key of [get_params], so the result is the two side by side. *)
Record Params : Type := { consts : ModelParams; cli : Args }.

Definition params_update (p : ModelParams) (a : Args) : Params :=
  {| consts := p; cli := a |}.

(** What [logging.info] is called with. *)
Inductive log_record : Type :=
| LogParams (p : Params)
| LogDevice
| LogText (s : string)
| LogReading (files : list string)
| LogTranscripts (s : string).

(** Calls that leave the script, and log records. *)
Inductive event : Type :=
| Logged (r : log_record)
| TorchaudioLoad (f : string)
| FbankCall (n : nat)
| EncoderCall
| GreedySearch (i : nat)
| BeamSearch (i : nat)
| SpDecode (i : nat).

Definition logging_info (r : log_record) : run event unit := emit (Logged r).

(** Python's [xs[:k]] on a sequence of length [length xs]: a negative stop
    counts from the end, and both ends are clamped. *)
Definition py_stop (n : nat) (k : Z) : nat :=
  if k <? 0 then Z.to_nat (Z.max 0 (Z.of_nat n + k))
  else Z.to_nat (Z.min k (Z.of_nat n)).

Definition slice_to {A} (xs : list A) (k : Z) : list A :=
  take (py_stop (length xs) k) xs.

(** [" ".join(hyp)] *)
Definition join_words (hyp : list string) : string := String.concat " " hyp.

(** [f"{filename}:\n{words}\n\n"] *)
Definition block (filename : string) (hyp : list string) : string :=
  filename +:+ ":" +:+ nl +:+ join_words hyp +:+ nl +:+ nl.

(** Lines 281-284: [s = "\n"], then one block per pair of the zip. *)
Definition transcript (files : list string) (hyps : list (list string)) : string :=
  fold_left (fun s fh => s +:+ block (fst fh) (snd fh)) (combine files hyps) nl.

(** Modelled from the spec: the longest length of the batch, the
    [max_length = max(length_i)] of section 4.2; part of [pad_sequence],
    which is PyTorch's and not under [src/]. *)
Definition max_length (sequences : list Tensor2) : nat :=
  foldr Nat.max 0%nat (map size0 sequences).

(** Modelled from the spec: the tensor allocated by [pad_sequence], filled
    with the padding value (section 4.2). *)
Definition full (rows cols : nat) (v : float) : list (list float) :=
  replicate rows (replicate cols v).

(** Modelled from the spec: [out[i, :length, ...] = tensor] on one item of
    the batch, the copy of a matrix into rows [0:length_i] (section 4.2). *)
Definition copy_rows (out_i src : list (list float)) : list (list float) :=
  src ++ drop (length src) out_i.

(** Modelled from the spec: [torch.nn.utils.rnn.pad_sequence(sequences,
    batch_first=True, padding_value=v)] is PyTorch's and not under [src/];
    section 4.2 gives its algorithm: take the longest length, allocate a
    tensor of shape (N, max_length, dim) filled with the padding value, copy
    each matrix into rows [0:length_i].  The trailing dimension is that of
    the first sequence; an empty list and a sequence of another trailing
    dimension are errors. *)
Definition pad_sequence (sequences : list Tensor2) (padding_value : float)
  : result Tensor3 :=
  match sequences with
  | [] => Raise (RuntimeError "received an empty list of sequences")
  | s0 :: _ =>
      let max_len := max_length sequences in
      let dim := t2_dim s0 in
      if forallb (fun t => Nat.eqb (t2_dim t) dim) sequences then
        Ok {| t3_size1 := max_len;
              t3_size2 := dim;
              t3_data :=
                map (fun t => copy_rows (full max_len dim padding_value) (t2_rows t))
                    sequences |}
      else Raise (RuntimeError "The size of tensor a must match the size of tensor b")
  end.

(** The external capabilities the script is written against. *)
Class Externals : Type :=
  { math_log : float -> float;
    SentencePieceProcessor : Type;
    Transducer : Type;
    (** lines 211-212 *)
    spm_load : option string -> result SentencePieceProcessor;
    (** lines 215-233: the model built from the parameters and the
        tokenizer's vocabulary, its weights read from the checkpoint *)
    load_model : SentencePieceProcessor -> Params -> string -> result Transducer;
    (** [torchaudio.load]: a (channel, time) tensor and the file's rate *)
    torchaudio_load : string -> result (list (list float) * Z);
    (** [kaldifeat.Fbank(opts)] applied to a list of waves *)
    fbank : list (list float) -> list Tensor2;
    encoder : Transducer -> Tensor3 -> list Z -> Tensor3 * list Z;
    greedy_search : Transducer -> Tensor3 -> list Z;
    beam_search : Transducer -> Tensor3 -> Z -> list Z;
    sp_decode : SentencePieceProcessor -> list Z -> string;
    str_split : string -> list string }.

Section Main.

Context `{ext : Externals}.

(** [math.log(1e-10)] *)
#[warnings="-inexact-float"]
Definition padding_value : float := math_log 1e-10%float.

(** One iteration of the loop of [read_sound_files]. *)
Definition read_sound_file (expected_sample_rate : Z) (f : string)
  : run event (list float) :=
  do! emit (TorchaudioLoad f) in
  let! ws := lift (torchaudio_load f) in
  let (wave, sample_rate) := (ws : list (list float) * Z) in
  if sample_rate =? expected_sample_rate then
    match wave with
    | w0 :: _ => ret w0
    | [] => raise IndexError
    end
  else
    raise (AssertionError ("expected sample rate: " +:+ pretty expected_sample_rate
                           +:+ ". Given: " +:+ pretty sample_rate)).

Fixpoint read_sound_files (filenames : list string) (expected_sample_rate : Z)
  : run event (list (list float)) :=
  match filenames with
  | [] => ret []
  | f :: rest =>
      let! w := read_sound_file expected_sample_rate f in
      let! ans := read_sound_files rest expected_sample_rate in
      ret (w :: ans)
  end.

(** Lines 252-257. *)
Definition batch_features (features : list Tensor2)
  : result (Tensor3 * list Z) :=
  let feature_lengths := map (fun f => Z.of_nat (size0 f)) features in
  match pad_sequence features padding_value with
  | Ok padded => Ok (padded, feature_lengths)
  | Raise e => Raise e
  end.

(** [encoder_out[i:i+1, :encoder_out_lens[i]]] *)
Definition encoder_out_slice (encoder_out : Tensor3) (encoder_out_lens : list Z)
           (i : nat) : result Tensor3 :=
  match encoder_out_lens !! i with
  | None => Raise IndexError
  | Some len_i =>
      Ok {| t3_size1 := py_stop (t3_size1 encoder_out) len_i;
            t3_size2 := t3_size2 encoder_out;
            t3_data := map (fun row => slice_to row len_i)
                           (take 1 (drop i (t3_data encoder_out))) |}
  end.

(** Lines 270-277. *)
Definition dispatch (params : Params) (model : Transducer)
           (i : nat) (encoder_out_i : Tensor3) : run event (list Z) :=
  if String.eqb (method (cli params)) "greedy_search" then
    do! emit (GreedySearch i) in
    ret (greedy_search model encoder_out_i)
  else if String.eqb (method (cli params)) "beam_search" then
    do! emit (BeamSearch i) in
    ret (beam_search model encoder_out_i (beam_size (cli params)))
  else
    raise (ValueError ("Unsupported method: " +:+ method (cli params))).

(** The body of the loop of lines 266-279, for utterance [i]. *)
Definition decode_one (params : Params) (sp : SentencePieceProcessor)
           (model : Transducer) (encoder_out : Tensor3)
           (encoder_out_lens : list Z) (i : nat) : run event (list string) :=
  let! encoder_out_i := lift (encoder_out_slice encoder_out encoder_out_lens i) in
  let! hyp := dispatch params model i encoder_out_i in
  do! emit (SpDecode i) in
  ret (str_split (sp_decode sp hyp)).

(** The loop itself; [hyps] is the list built so far. *)
Fixpoint decode_loop (params : Params) (sp : SentencePieceProcessor)
         (model : Transducer) (encoder_out : Tensor3)
         (encoder_out_lens : list Z) (indices : list nat)
         (hyps : list (list string)) : run event (list (list string)) :=
  match indices with
  | [] => ret hyps
  | i :: rest =>
      let! h := decode_one params sp model encoder_out encoder_out_lens i in
      decode_loop params sp model encoder_out encoder_out_lens rest (hyps ++ [h])
  end.

Definition main (args : Args) : run event unit :=
  let params := params_update get_params args in
  let! sp := lift (spm_load (bpe_model (cli params))) in
  do! logging_info (LogParams params) in
  do! logging_info LogDevice in
  do! logging_info (LogText "Creating model") in
  let! model := lift (load_model sp params (checkpoint args)) in
  do! logging_info (LogText "Constructing Fbank computer") in
  do! logging_info (LogReading (sound_files (cli params))) in
  let! waves := read_sound_files (sound_files (cli params)) (sample_rate (consts params)) in
  do! logging_info (LogText "Decoding started") in
  do! emit (FbankCall (length waves)) in
  let features := fbank waves in
  let! batch := lift (batch_features features) in
  let (padded, feature_lengths) := (batch : Tensor3 * list Z) in
  do! emit EncoderCall in
  let (encoder_out, encoder_out_lens) := encoder model padded feature_lengths in
  let num_waves := batch_size encoder_out in
  let! hyps := decode_loop params sp model encoder_out encoder_out_lens
                           (seq 0 num_waves) [] in
  do! logging_info (LogTranscripts (transcript (sound_files (cli params)) hyps)) in
  logging_info (LogText "Decoding Done").

(** The decoding strategy selected by a valid [--method]. *)
Definition search (params : Params) (model : Transducer) (encoder_out_i : Tensor3)
  : list Z :=
  if String.eqb (method (cli params)) "greedy_search"
  then greedy_search model encoder_out_i
  else beam_search model encoder_out_i (beam_size (cli params)).

(** The words decoded for utterance [i] under a valid [--method]. *)
Definition hyp_of (params : Params) (sp : SentencePieceProcessor)
           (model : Transducer) (encoder_out : Tensor3)
           (encoder_out_lens : list Z) (i : nat) : list string :=
  match encoder_out_slice encoder_out encoder_out_lens i with
  | Ok encoder_out_i => str_split (sp_decode sp (search params model encoder_out_i))
  | Raise _ => []
  end.

End Main.

(** *** Observations on a trace *)

(** The strings logged at line 285. *)
Definition transcripts_logged (t : list event) : list string :=
  omap (fun ev => match ev with
                  | Logged (LogTranscripts s) => Some s
                  | _ => None
                  end) t.

(** A decoding strategy or the detokenizer ran. *)
Definition is_decoding (ev : event) : bool :=
  match ev with
  | GreedySearch _ | BeamSearch _ | SpDecode _ => true
  | _ => false
  end.

(** Anything that follows waveform loading: feature extraction, the
    encoder, decoding, the transcript record. *)
Definition after_loading (ev : event) : bool :=
  match ev with
  | FbankCall _ | EncoderCall | Logged (LogTranscripts _) => true
  | _ => is_decoding ev
  end.

End Pretrained.

(** ** local/compute_fbank_mucs.py *)

Module ComputeFbankMucs.

(** Command line of [get_args]: four optional strings. *)
Record Args : Type :=
  { bpe_model : option string;
    dataset : option string;
    manifestpath : option string;
    fbankpath : option string }.

(** What the output directory holds under a path: a cut set written by
    [to_file], what a feature writer left under its storage path, or a
    file whose write was cut short. *)
Inductive file (CutSet Blob : Type) : Type :=
| CutsFile (cuts : CutSet)
| FeatsStore (blob : Blob)
| Truncated.
Arguments CutsFile {CutSet Blob} cuts.
Arguments FeatsStore {CutSet Blob} blob.
Arguments Truncated {CutSet Blob}.

(** [FbankConfig(num_mel_bins=...)] *)
Record FbankConfig : Type := { num_mel_bins : Z }.

(** How a call of [to_file] ends: the file is written, or the call raises,
    with or without a partial file left behind. *)
Inductive write_result : Type :=
| Written
| WriteFailed (e : exn) (partial : bool).

(** The external capabilities and the machine the script runs on. *)
Class Externals : Type :=
  { Manifest : Type;
    CutSet : Type;
    Blob : Type;
    Executor : Type;
    (** [os.cpu_count()] *)
    os_cpu_count : option Z;
    (** what [get_executor()] yields *)
    get_executor : option Executor;
    (** [sp.load(path)] *)
    spm_load : string -> result unit;
    (** [read_manifests_if_cached(dataset_parts, output_dir, prefix, suffix)]:
        a dictionary, in insertion order, from partition to its manifests
        by kind *)
    read_manifests_if_cached :
      list string -> string -> string -> string ->
      result (option (list (string * gmap string Manifest)));
    (** [CutSet.from_manifests(recordings=..., supervisions=...)] *)
    from_manifests : Manifest -> Manifest -> result CutSet;
    (** [cut_set.compute_and_store_features(extractor, storage_path,
        num_jobs, executor, storage_type=LilcomChunkyWriter)]: what it left
        under the storage path, and the cut set or the exception *)
    compute_and_store_features :
      CutSet -> FbankConfig -> string -> Z -> option Executor ->
      option Blob * result CutSet;
    (** [cut_set.trim_to_supervisions(keep_overlapping, min_duration,
        keep_all_channels)] *)
    trim_to_supervisions : CutSet -> bool -> option float -> bool -> result CutSet;
    (** [cut_set.to_file(path)] *)
    to_file : CutSet -> string -> write_result }.

(** What [logging.info] is called with. *)
Inductive log_record : Type :=
| LogArgs (a : Args)
| LogLoading (bpe_model : string)
| LogSkip (partition : string)
| LogProcessing (partition : string).

(** Calls that leave the script, and log records. *)
Inductive event : Type :=
| Logged (r : log_record)
| SpLoad (path : string)
| ReadManifests (dataset_parts : list string) (src_dir prefix suffix : string)
| FromManifests (partition : string)
| ComputeFeatures (partition storage_path : string) (num_jobs : Z)
| Trim (partition : string) (keep_overlapping : bool)
       (min_duration : option float) (keep_all_channels : bool)
| ToFile (path : string).

Definition dataset_parts : list string := ["train"; "test"; "dev"].
Definition prefix : string := "mucs".
Definition suffix : string := "jsonl.gz".

(** [Path(p)]: a [TypeError] on [None]. *)
Definition Path (p : option string) : result string :=
  match p with
  | Some d => Ok d
  | None => Raise TypeError
  end.

(** [dir / name] *)
Definition path_join (dir name : string) : string := dir +:+ "/" +:+ name.

(** [f"{prefix}_cuts_{partition}.{suffix}"] *)
Definition cuts_filename (partition : string) : string :=
  prefix +:+ "_cuts_" +:+ partition +:+ "." +:+ suffix.

(** [f"{output_dir}/{prefix}_feats_{partition}"] *)
Definition storage_path (output_dir partition : string) : string :=
  output_dir +:+ "/" +:+ prefix +:+ "_feats_" +:+ partition.

(** [min(48, os.cpu_count())]: a [TypeError] when the count is [None]. *)
Definition num_jobs_of (cpu_count : option Z) : result Z :=
  match cpu_count with
  | Some c => Ok (Z.min 48 c)
  | None => Raise TypeError
  end.

(** [num_jobs if ex is None else 80] *)
Definition jobs_for {Executor : Type} (num_jobs : Z) (ex : option Executor) : Z :=
  match ex with
  | None => num_jobs
  | Some _ => 80
  end.

(** Python truthiness of an optional string: [None] and the empty string
    are false. *)
Definition truthy (s : option string) : option string :=
  match s with
  | Some EmptyString => None
  | other => other
  end.

Section Script.

Context `{ext : Externals}.

Local Abbreviation FS := (gmap string (file CutSet Blob)).

(** A computation on the output directory: the directory it leaves, the
    events it performed, and its value or exception.  The directory
    survives an exception. *)
Definition io (A : Type) : Type := FS -> FS * list event * result A.

Definition io_ret {A} (a : A) : io A := fun fs => (fs, [], Ok a).

Definition io_bind {A B} (m : io A) (k : A -> io B) : io B :=
  fun fs =>
    match m fs with
    | (fs1, t1, Ok a) =>
        match k a fs1 with
        | (fs2, t2, r) => (fs2, t1 ++ t2, r)
        end
    | (fs1, t1, Raise e) => (fs1, t1, Raise e)
    end.

Definition io_emit (e : event) : io unit := fun fs => (fs, [e], Ok tt).
Definition io_raise {A} (e : exn) : io A := fun fs => (fs, [], Raise e).
Definition io_lift {A} (r : result A) : io A := fun fs => (fs, [], r).
Definition logging_info (r : log_record) : io unit := io_emit (Logged r).

Notation "'let!!' x ':=' m 'in' k" := (io_bind m (fun x => k))
  (at level 10, x name, m at level 200, k at level 200, only parsing).
Notation "'do!!' m 'in' k" := (io_bind m (fun _ => k))
  (at level 10, m at level 200, k at level 200, only parsing).

(** [path.is_file()] *)
Definition is_file (path : string) : io bool :=
  fun fs => (fs, [], Ok (bool_decide (is_Some (fs !! path)))).

(** [m[key]] *)
Definition getitem (m : gmap string Manifest) (key : string) : result Manifest :=
  match m !! key with
  | Some v => Ok v
  | None => Raise (KeyError key)
  end.

(** The call of [compute_and_store_features] with its effect on the
    directory: whatever was written lies under the storage path. *)
Definition do_compute (partition : string) (cut_set : CutSet)
           (extractor : FbankConfig) (storage : string) (num_jobs : Z)
           (ex : option Executor) : io CutSet :=
  fun fs =>
    let (written, r) :=
      compute_and_store_features cut_set extractor storage num_jobs ex in
    (match written with
     | Some blob => <[storage := FeatsStore blob]> fs
     | None => fs
     end,
     [ComputeFeatures partition storage num_jobs], r).

(** The call of [to_file] with its effect on the directory. *)
Definition do_to_file (cut_set : CutSet) (path : string) : io unit :=
  fun fs =>
    match to_file cut_set path with
    | Written => (<[path := CutsFile cut_set]> fs, [ToFile path], Ok tt)
    | WriteFailed e true => (<[path := Truncated]> fs, [ToFile path], Raise e)
    | WriteFailed e false => (fs, [ToFile path], Raise e)
    end.

(** The body of the loop of lines 116-140. *)
Definition process_partition (output_dir : string) (extractor : FbankConfig)
           (num_jobs : Z) (ex : option Executor)
           (item : string * gmap string Manifest) : io unit :=
  let (partition, m) := item in
  let cuts_path := path_join output_dir (cuts_filename partition) in
  let!! done := is_file cuts_path in
  if (done : bool) then
    logging_info (LogSkip partition)
  else
    do!! logging_info (LogProcessing partition) in
    let!! recordings := io_lift (getitem m "recordings") in
    let!! supervisions := io_lift (getitem m "supervisions") in
    do!! io_emit (FromManifests partition) in
    let!! cut_set := io_lift (from_manifests recordings supervisions) in
    let!! cut_set := do_compute partition cut_set extractor
                                (storage_path output_dir partition)
                                (jobs_for num_jobs ex) ex in
    do!! io_emit (Trim partition false None false) in
    let!! cut_set := io_lift (trim_to_supervisions cut_set false None false) in
    do_to_file cut_set cuts_path.

(** [for partition, m in manifests.items(): ...] *)
Fixpoint partition_loop (output_dir : string) (extractor : FbankConfig)
         (num_jobs : Z) (ex : option Executor)
         (manifests : list (string * gmap string Manifest)) : io unit :=
  match manifests with
  | [] => io_ret tt
  | item :: rest =>
      do!! process_partition output_dir extractor num_jobs ex item in
      partition_loop output_dir extractor num_jobs ex rest
  end.

(** Lines 85-88. *)
Definition load_bpe (bpe_model : option string) : io unit :=
  match truthy bpe_model with
  | Some path =>
      do!! logging_info (LogLoading path) in
      do!! io_emit (SpLoad path) in
      io_lift (spm_load path)
  | None => io_ret tt
  end.

(** [compute_fbank_mucs(bpe_model, dataset)], which reads the global
    [args]. *)
Definition compute_fbank_mucs (args : Args) (bpe_model dataset : option string)
  : io unit :=
  let!! src_dir := io_lift (Path (manifestpath args)) in
  let!! output_dir := io_lift (Path (fbankpath args)) in
  let!! num_jobs := io_lift (num_jobs_of os_cpu_count) in
  let num_mel_bins := 80 in
  do!! load_bpe bpe_model in
  do!! io_emit (ReadManifests dataset_parts src_dir prefix suffix) in
  let!! manifests := io_lift (read_manifests_if_cached dataset_parts src_dir
                                                       prefix suffix) in
  match manifests with
  | None => io_raise (AssertionError EmptyString)
  | Some manifests =>
      if (length manifests =? length dataset_parts)%nat then
        let extractor := {| ComputeFbankMucs.num_mel_bins := num_mel_bins |} in
        let ex := get_executor in
        partition_loop output_dir extractor num_jobs ex manifests
      else
        io_raise (AssertionError "(len(manifests), len(dataset_parts), ...)")
  end.

(** Lines 146-149. *)
Definition script (args : Args) : io unit :=
  do!! logging_info (LogArgs args) in
  compute_fbank_mucs args (bpe_model args) (dataset args).

End Script.

(** *** Observations on a run *)

Definition final_fs {S E A} (r : S * list E * result A) : S := r.1.1.
Definition events {S E A} (r : S * list E * result A) : list E := r.1.2.
Definition raised {S E A} (r : S * list E * result A) : result A := r.2.

(** Anything the loop does for a partition it does not skip. *)
Definition is_processing (ev : event) : bool :=
  match ev with
  | Logged (LogProcessing _) | FromManifests _ | ComputeFeatures _ _ _
  | Trim _ _ _ _ | ToFile _ => true
  | _ => false
  end.

(** The tokenizer being loaded. *)
Definition is_bpe_loading (ev : event) : bool :=
  match ev with
  | Logged (LogLoading _) | SpLoad _ => true
  | _ => false
  end.

(** The events of lines 85-88 for a given [--bpe-model]. *)
Definition bpe_events (bpe_model : option string) : list event :=
  match truthy bpe_model with
  | Some path => [Logged (LogLoading path); SpLoad path]
  | None => []
  end.

(** A call of [to_file] on the given path. *)
Definition writes_to (path : string) (ev : event) : bool :=
  match ev with
  | ToFile p => String.eqb p path
  | _ => false
  end.

(** The events of a partition's step: a skip, or the steps of processing. *)
Definition is_loop_event (ev : event) : bool :=
  match ev with
  | Logged (LogSkip _) => true
  | _ => is_processing ev
  end.

(** A read of the manifests asks for the three partitions. *)
Definition reads_all_parts (ev : event) : Prop :=
  match ev with
  | ReadManifests parts _ _ _ => parts = ["train"; "test"; "dev"]
  | _ => True
  end.

(** A feature computation runs with [n] jobs. *)
Definition computes_with (n : Z) (ev : event) : Prop :=
  match ev with
  | ComputeFeatures _ _ num_jobs => num_jobs = n
  | _ => True
  end.

(** A trace without the events of the tokenizer being loaded. *)
Definition without_bpe_loading (t : list event) : list event :=
  List.filter (fun ev => negb (is_bpe_loading ev)) t.

(** The command line with another [--dataset]. *)
Definition with_dataset (d : option string) (a : Args) : Args :=
  {| bpe_model := bpe_model a;
     dataset := d;
     manifestpath := manifestpath a;
     fbankpath := fbankpath a |}.

End ComputeFbankMucs.

(** ** A deterministic stand-in for the capabilities of [pretrained.py]

    Files [a.wav] (two channels, three samples) and [b.wav] (one sample) are
    at 16000 Hz, every other path is at 8000 Hz; one frame of one bin per
    sample; the encoder is the identity; a hypothesis is the length of the
    encoder output it is given. *)

Module PretrainedStub.
Import Pretrained.

Definition stub_load (f : string) : result (list (list float) * Z) :=
  if String.eqb f "a.wav" then
    Ok ([[1%float; 2%float; 3%float]; [7%float; 8%float; 9%float]], 16000)
  else if String.eqb f "b.wav" then Ok ([[4%float]], 16000)
  else Ok ([[5%float; 6%float]], 8000).

Definition stub_fbank (waves : list (list float)) : list Tensor2 :=
  map (fun w => {| t2_dim := 1; t2_rows := map (fun x => [x]) w |}) waves.

Definition stub_words (hyp : list Z) : string :=
  match hyp with
  | [3] => "three frames"
  | [1] => "one frame"
  | _ => "other"
  end.

#[warnings="-inexact-float"]
Definition stub : Externals :=
  {| math_log := fun _ => (-23.025850929940457)%float;
     SentencePieceProcessor := unit;
     Transducer := unit;
     spm_load := fun _ => Ok tt;
     load_model := fun _ _ _ => Ok tt;
     torchaudio_load := stub_load;
     fbank := stub_fbank;
     encoder := fun _ x x_lens => (x, x_lens);
     greedy_search := fun _ e => map (fun item => Z.of_nat (length item)) (t3_data e);
     beam_search := fun _ e beam => map (fun item => Z.of_nat (length item)) (t3_data e);
     sp_decode := fun _ hyp => stub_words hyp;
     str_split := fun s => [s] |}.


Definition run_args (m : string) (files : list string) : Args :=
  {| checkpoint := "pretrained.pt";
     bpe_model := Some "bpe.model";
     method := m;
     sound_files := files;
     beam_size := 5 |}.

End PretrainedStub.

(** ** A deterministic stand-in for the capabilities of
    [compute_fbank_mucs.py]

    Manifests, cut sets and feature stores are strings that spell out how
    they were made.  The manifests of the three partitions are cached under
    [manifests] and nowhere else; [missing.model] does not load; the feature
    computation of the partition named by [failing] leaves a partial store
    and raises. *)

Module ComputeFbankMucsStub.
Import ComputeFbankMucs.

Definition stub_manifest (partition : string) : gmap string string :=
  <["recordings" := "recordings_" +:+ partition]>
    (<["supervisions" := "supervisions_" +:+ partition]> ∅).

Definition stub_with (failing : string) : Externals :=
  {| Manifest := string;
     CutSet := string;
     Blob := string;
     Executor := unit;
     os_cpu_count := Some 8;
     get_executor := None;
     spm_load := fun path =>
       if String.eqb path "missing.model"
       then Raise (External "Not found: missing.model")
       else Ok tt;
     read_manifests_if_cached := fun parts src_dir _ _ =>
       if String.eqb src_dir "manifests"
       then Ok (Some (map (fun p => (p, stub_manifest p)) parts))
       else Ok (Some []);
     from_manifests := fun r s => Ok ("cuts(" +:+ r +:+ "," +:+ s +:+ ")");
     compute_and_store_features := fun c _ storage _ _ =>
       if String.eqb storage ("fbank/mucs_feats_" +:+ failing)
       then (Some "partial", Raise (External "worker failed"))
       else (Some ("feats(" +:+ c +:+ ")"), Ok ("fbank(" +:+ c +:+ ")"));
     trim_to_supervisions := fun c _ _ _ => Ok ("trim(" +:+ c +:+ ")");
     to_file := fun _ _ => Written |}.

Definition stub : Externals := stub_with "none".

Definition stub_args (bpe : option string) (src_dir : string) : Args :=
  {| bpe_model := bpe;
     dataset := None;
     manifestpath := Some src_dir;
     fbankpath := Some "fbank" |}.

(** Every artifact present, each one cut short. *)
Definition all_truncated : gmap string (file string string) :=
  <["fbank/mucs_cuts_train.jsonl.gz" := Truncated]>
    (<["fbank/mucs_cuts_test.jsonl.gz" := Truncated]>
       (<["fbank/mucs_cuts_dev.jsonl.gz" := Truncated]> ∅)).

End ComputeFbankMucsStub.

(** ** The parameter dictionary and the model builders of [pretrained.py]

    [get_params] returns a dictionary and [main] updates it with the command
    line and with the tokenizer's two sizes; the [get_*_model] functions
    read their constructor arguments from it. *)

Module PretrainedSetup.
Import Pretrained.

(** The values the dictionary holds. *)
Inductive value : Type :=
| VInt (n : Z)
| VBool (b : bool)
| VStr (s : string)
| VStrs (l : list string)
| VNone
| VEnv.

(** The dictionary literal of [get_params], [env_info] included. *)
Definition get_params_dict : gmap string value :=
  list_to_map
    [("sample_rate"%string, VInt (sample_rate get_params));
     ("feature_dim"%string, VInt (feature_dim get_params));
     ("encoder_out_dim"%string, VInt (encoder_out_dim get_params));
     ("subsampling_factor"%string, VInt (subsampling_factor get_params));
     ("attention_dim"%string, VInt (attention_dim get_params));
     ("nhead"%string, VInt (nhead get_params));
     ("dim_feedforward"%string, VInt (dim_feedforward get_params));
     ("num_encoder_layers"%string, VInt (num_encoder_layers get_params));
     ("vgg_frontend"%string, VBool (vgg_frontend get_params));
     ("decoder_embedding_dim"%string, VInt (decoder_embedding_dim get_params));
     ("num_decoder_layers"%string, VInt (num_decoder_layers get_params));
     ("decoder_hidden_dim"%string, VInt (decoder_hidden_dim get_params));
     ("env_info"%string, VEnv)].

(** [vars(args)]: one key per destination of [get_parser]. *)
Definition vars (a : Args) : gmap string value :=
  list_to_map
    [("checkpoint"%string, VStr (checkpoint a));
     ("bpe_model"%string, match bpe_model a with Some s => VStr s | None => VNone end);
     ("method"%string, VStr (method a));
     ("sound_files"%string, VStrs (sound_files a));
     ("beam_size"%string, VInt (beam_size a))].

(** [d.update(other)]: the keys of [other] win. *)
Definition dict_update (d other : gmap string value) : gmap string value :=
  other ∪ d.

(** Lines 207-209. *)
Definition params_dict (a : Args) : gmap string value :=
  dict_update get_params_dict (vars a).

(** Lines 215-216: [params.blank_id = ...; params.vocab_size = ...]. *)
Definition set_vocab (params : gmap string value) (blank_id vocab_size : Z)
  : gmap string value :=
  <["vocab_size" := VInt vocab_size]> (<["blank_id" := VInt blank_id]> params).

(** [params.key] for an integer and for a boolean parameter; [None] stands
    for the exception of an attribute that is not a key. *)
Definition attr_int (params : gmap string value) (key : string) : option Z :=
  match params !! key with
  | Some (VInt n) => Some n
  | _ => None
  end.

Definition attr_bool (params : gmap string value) (key : string) : option bool :=
  match params !! key with
  | Some (VBool b) => Some b
  | _ => None
  end.

(** The keyword arguments the three networks are built with. *)
Record Conformer : Type :=
  { num_features : Z;
    conformer_output_dim : Z;
    conformer_subsampling_factor : Z;
    d_model : Z;
    conformer_nhead : Z;
    conformer_dim_feedforward : Z;
    conformer_num_encoder_layers : Z;
    conformer_vgg_frontend : bool }.

Record Decoder : Type :=
  { decoder_vocab_size : Z;
    embedding_dim : Z;
    decoder_blank_id : Z;
    num_layers : Z;
    hidden_dim : Z;
    decoder_output_dim : Z }.

Record Joiner : Type := { input_dim : Z; joiner_output_dim : Z }.

Record TransducerModel : Type :=
  { model_encoder : Conformer; model_decoder : Decoder; model_joiner : Joiner }.

Definition get_encoder_model (params : gmap string value) : option Conformer :=
  num_features ← attr_int params "feature_dim";
  output_dim ← attr_int params "encoder_out_dim";
  subsampling_factor ← attr_int params "subsampling_factor";
  d_model ← attr_int params "attention_dim";
  nhead ← attr_int params "nhead";
  dim_feedforward ← attr_int params "dim_feedforward";
  num_encoder_layers ← attr_int params "num_encoder_layers";
  vgg_frontend ← attr_bool params "vgg_frontend";
  Some {| num_features := num_features;
          conformer_output_dim := output_dim;
          conformer_subsampling_factor := subsampling_factor;
          d_model := d_model;
          conformer_nhead := nhead;
          conformer_dim_feedforward := dim_feedforward;
          conformer_num_encoder_layers := num_encoder_layers;
          conformer_vgg_frontend := vgg_frontend |}.

Definition get_decoder_model (params : gmap string value) : option Decoder :=
  vocab_size ← attr_int params "vocab_size";
  embedding_dim ← attr_int params "decoder_embedding_dim";
  blank_id ← attr_int params "blank_id";
  num_layers ← attr_int params "num_decoder_layers";
  hidden_dim ← attr_int params "decoder_hidden_dim";
  output_dim ← attr_int params "encoder_out_dim";
  Some {| decoder_vocab_size := vocab_size;
          embedding_dim := embedding_dim;
          decoder_blank_id := blank_id;
          num_layers := num_layers;
          hidden_dim := hidden_dim;
          decoder_output_dim := output_dim |}.

Definition get_joiner_model (params : gmap string value) : option Joiner :=
  input_dim ← attr_int params "encoder_out_dim";
  output_dim ← attr_int params "vocab_size";
  Some {| input_dim := input_dim; joiner_output_dim := output_dim |}.

Definition get_transducer_model (params : gmap string value)
  : option TransducerModel :=
  encoder ← get_encoder_model params;
  decoder ← get_decoder_model params;
  joiner ← get_joiner_model params;
  Some {| model_encoder := encoder; model_decoder := decoder;
          model_joiner := joiner |}.

(** The command line with another [--beam-size]. *)
Definition with_beam_size (b : Z) (a : Args) : Args :=
  {| checkpoint := checkpoint a;
     bpe_model := bpe_model a;
     method := method a;
     sound_files := sound_files a;
     beam_size := b |}.

(** The record of the parameters, which spells out the whole command
    line. *)
Definition is_params_log (ev : event) : bool :=
  match ev with
  | Logged (LogParams _) => true
  | _ => false
  end.

Definition without_params_log (t : list event) : list event :=
  List.filter (fun ev => negb (is_params_log ev)) t.

(** The events of the decoding loop and of the report that follows it. *)
Definition after_encoder (ev : event) : bool :=
  match ev with
  | Logged (LogTranscripts _) | Logged (LogText _) => true
  | _ => is_decoding ev
  end.

End PretrainedSetup.

(** * Properties *)

(** ** The trace monad *)

Lemma trace_bind {E A B} (m : run E A) (k : A -> run E B) :
  trace (bind m k) =
    trace m ++ match outcome m with Ok a => trace (k a) | Raise _ => [] end.
Proof.
  destruct m as [t [a|e]]; simpl.
  - by destruct (k a).
  - by rewrite app_nil_r.
Qed.

Lemma outcome_bind {E A B} (m : run E A) (k : A -> run E B) :
  outcome (bind m k) =
    match outcome m with Ok a => outcome (k a) | Raise e => Raise e end.
Proof.
  destruct m as [t [a|e]]; simpl; [|done].
  by destruct (k a).
Qed.

Lemma run_eta {E A} (m : run E A) : m = (trace m, outcome m).
Proof. by destruct m. Qed.

Lemma bind_lift_ok {E A B} (a : A) (k : A -> run E B) :
  bind (lift (Ok a)) k = k a.
Proof. unfold lift; simpl. by destruct (k a). Qed.

Lemma bind_emit {E B} (e : E) (k : unit -> run E B) :
  bind (emit e) k = (e :: trace (k tt), outcome (k tt)).
Proof. unfold emit; simpl. by destruct (k tt). Qed.

Lemma string_app_assoc (s1 s2 s3 : string) :
  (s1 +:+ s2) +:+ s3 = s1 +:+ (s2 +:+ s3).
Proof.
  induction s1 as [|a s1 IH]; [done|].
  change (String a ((s1 +:+ s2) +:+ s3) = String a (s1 +:+ (s2 +:+ s3))).
  by rewrite IH.
Qed.

Lemma string_app_nil_r (s : string) : s +:+ EmptyString = s.
Proof.
  induction s as [|a s IH]; [done|].
  change (String a (s +:+ EmptyString) = String a s). by rewrite IH.
Qed.

Module PretrainedSpec.
Import Pretrained.

(** Python's slices and the layout of the transcript, on small inputs. *)
Example slice_to_examples :
  slice_to [1; 2; 3] 2 = [1; 2] /\ slice_to [1; 2; 3] 5 = [1; 2; 3] /\
  slice_to [1; 2; 3] (-1) = [1; 2] /\ slice_to [1; 2; 3] (-7) = [].
Proof. repeat split; reflexivity. Qed.

Example transcript_example :
  transcript ["a.wav"; "b.wav"] [["hello"; "world"]; ["yes"]]
  = nl +:+ "a.wav:" +:+ nl +:+ "hello world" +:+ nl +:+ nl
       +:+ "b.wav:" +:+ nl +:+ "yes" +:+ nl +:+ nl.
Proof. reflexivity. Qed.

Section Facts.

Context `{ext : Externals}.

(** *** The batch assembler *)



Lemma copy_rows_valid (out_i src : list (list float)) :
  take (length src) (copy_rows out_i src) = src.
Proof. unfold copy_rows. by rewrite take_app_length. Qed.


Lemma pad_sequence_ok (features : list Tensor2) (dim : nat) (v : float) :
  features <> [] ->
  Forall (fun f => t2_dim f = dim) features ->
  pad_sequence features v =
    Ok {| t3_size1 := max_length features;
          t3_size2 := dim;
          t3_data := map (fun t => copy_rows (full (max_length features) dim v)
                                             (t2_rows t)) features |}.
Proof.
  intros Hne Hdim. destruct features as [|s0 rest]; [done|].
  unfold pad_sequence.
  assert (Hs0 : t2_dim s0 = dim) by (by inversion Hdim).
  rewrite Hs0.
  replace (forallb (fun t => Nat.eqb (t2_dim t) dim) (s0 :: rest)) with true; [done|].
  symmetry. apply forallb_forall. intros t Ht.
  apply Nat.eqb_eq. rewrite Forall_forall in Hdim. apply Hdim.
  by apply list_elem_of_In.
Qed.


(** *** Waveform loading *)

Lemma read_sound_file_ok (f : string) (w : list float) (rest : list (list float))
      (expected : Z) :
  torchaudio_load f = Ok (w :: rest, expected) ->
  read_sound_file expected f = ([TorchaudioLoad f], Ok w).
Proof.
  intros Hload. unfold read_sound_file.
  rewrite bind_emit, Hload, bind_lift_ok. by rewrite Z.eqb_refl.
Qed.

Lemma read_sound_file_mismatch (f : string) (wave : list (list float))
      (expected sr : Z) :
  torchaudio_load f = Ok (wave, sr) -> sr <> expected ->
  read_sound_file expected f =
    ([TorchaudioLoad f],
     Raise (AssertionError ("expected sample rate: " +:+ pretty expected
                            +:+ ". Given: " +:+ pretty sr))).
Proof.
  intros Hload Hne. unfold read_sound_file.
  rewrite bind_emit, Hload, bind_lift_ok.
  apply Z.eqb_neq in Hne. by rewrite Hne.
Qed.

Lemma read_sound_file_trace (f : string) (expected : Z) :
  trace (read_sound_file expected f) = [TorchaudioLoad f].
Proof.
  unfold read_sound_file. rewrite bind_emit. cbn [trace fst].
  destruct (torchaudio_load f) as [[wave sr]|e]; [|done].
  rewrite bind_lift_ok.
  destruct (sr =? expected); [|done]. by destruct wave.
Qed.

Lemma read_sound_files_trace (files : list string) (expected : Z) :
  Forall (fun ev => after_loading ev = false)
         (trace (read_sound_files files expected)).
Proof.
  induction files as [|f files IH]; simpl; [constructor|].
  rewrite trace_bind, read_sound_file_trace.
  constructor; [done|].
  destruct (outcome (read_sound_file expected f)); [|constructor].
  rewrite trace_bind. apply Forall_app. split; [done|].
  destruct (outcome (read_sound_files files expected)); simpl; constructor.
Qed.

Lemma read_sound_files_ok (files : list string) (waves : list (list float))
      (expected : Z) :
  Forall2 (fun f w => exists rest, torchaudio_load f = Ok (w :: rest, expected))
          files waves ->
  read_sound_files files expected = (map TorchaudioLoad files, Ok waves).
Proof.
  induction 1 as [|f w files waves [rest Hload] _ IH]; [done|].
  simpl. rewrite (read_sound_file_ok _ _ _ _ Hload), IH.
  simpl. by rewrite app_nil_r.
Qed.

Lemma read_sound_files_mismatch (files : list string) (expected : Z) :
  Exists (fun f => exists wave sr, torchaudio_load f = Ok (wave, sr) /\ sr <> expected)
         files ->
  exists e, outcome (read_sound_files files expected) = Raise e.
Proof.
  induction 1 as [f files (wave & sr & Hload & Hne)|f files _ [e IH]]; simpl.
  - rewrite (read_sound_file_mismatch _ _ _ _ Hload Hne). by eexists.
  - rewrite outcome_bind.
    destruct (outcome (read_sound_file expected f)); [|by eexists].
    rewrite outcome_bind, IH. by eexists.
Qed.

(** When waveform loading raises, [main] raises, and its trace stops
    with the loads. *)
Lemma main_stops_at_loading (args : Args) (e : exn) :
  outcome (read_sound_files (sound_files args) (sample_rate get_params)) = Raise e ->
  (exists e', outcome (main args) = Raise e') /\
  Forall (fun ev => after_loading ev = false) (trace (main args)).
Proof.
  intros Hread. unfold main, logging_info.
  cbn [cli consts params_update].
  destruct (spm_load (bpe_model args)) as [sp|e1]; [|split; [by eexists|constructor]].
  rewrite bind_lift_ok, !bind_emit. cbn [trace outcome fst snd].
  destruct (load_model sp _ (checkpoint args)) as [model|e2];
    [|split; [by eexists|repeat constructor]].
  rewrite bind_lift_ok, !bind_emit. cbn [trace outcome fst snd].
  rewrite outcome_bind, trace_bind, Hread.
  split; [by eexists|].
  repeat (constructor; [done|]).
  rewrite app_nil_r. apply read_sound_files_trace.
Qed.

(** C4. [read_sound_files] against the expected rate of [get_params],
    16000 Hz: when every file loads at that rate, the result is the first
    channel of each file, in input order, after one load per path; when
    some file loads at another rate, [read_sound_files] raises, hence
    [main] raises and its trace holds no feature extraction, encoder call,
    decoding or transcript record; the exception of the first such file,
    when the files before it are fine, is the assertion's. *)
Theorem sample_rate_check (files : list string) :
  sample_rate get_params = 16000 /\
  (forall waves : list (list float),
     Forall2 (fun f w => exists rest, torchaudio_load f = Ok (w :: rest, 16000))
             files waves ->
     read_sound_files files 16000 = (map TorchaudioLoad files, Ok waves)) /\
  (Exists (fun f => exists wave sr, torchaudio_load f = Ok (wave, sr) /\ sr <> 16000)
          files ->
   (exists e, outcome (read_sound_files files 16000) = Raise e) /\
   forall args : Args, sound_files args = files ->
     (exists e, outcome (main args) = Raise e) /\
     Forall (fun ev => after_loading ev = false) (trace (main args))) /\
  (forall (good : list string) (waves : list (list float)) (f : string)
          (rest : list string) (wave : list (list float)) (sr : Z),
     files = good ++ f :: rest ->
     Forall2 (fun f w => exists rest, torchaudio_load f = Ok (w :: rest, 16000))
             good waves ->
     torchaudio_load f = Ok (wave, sr) -> sr <> 16000 ->
     read_sound_files files 16000 =
       (map TorchaudioLoad (good ++ [f]),
        Raise (AssertionError ("expected sample rate: 16000. Given: " +:+ pretty sr)))).
Proof.
  split; [reflexivity|].
  split; [intros waves; apply read_sound_files_ok|].
  split.
  - intros Hbad.
    destruct (read_sound_files_mismatch files 16000 Hbad) as [e He].
    split; [by eexists|].
    intros args <-. by apply (main_stops_at_loading args e).
  - intros good waves f rest wave sr -> Hgood Hload Hne.
    induction Hgood as [|g w good waves [rest' Hg] _ IH]; simpl.
    + by rewrite (read_sound_file_mismatch _ _ _ _ Hload Hne).
    + by rewrite (read_sound_file_ok _ _ _ _ Hg), IH.
Qed.

(** *** The run up to the decoding loop *)

Lemma after_loading_false (t : list event) :
  Forall (fun ev => after_loading ev = false) t ->
  Forall (fun ev => is_decoding ev = false) t /\ transcripts_logged t = [].
Proof.
  induction 1 as [|ev t Hev _ [IH1 IH2]]; [by split|].
  split.
  - constructor; [|done]. by destruct ev as [[]| | | | | |].
  - unfold transcripts_logged in *.
    by destruct ev as [[]| | | | | |]; simpl in *.
Qed.

Lemma main_unfold (args : Args) (sp : SentencePieceProcessor) (model : Transducer)
      (tr : list event) (waves : list (list float)) (padded : Tensor3) (lens : list Z) :
  let params := params_update get_params args in
  let enc := encoder model padded lens in
  let loop := decode_loop params sp model enc.1 enc.2 (seq 0 (batch_size enc.1)) [] in
  spm_load (bpe_model args) = Ok sp ->
  load_model sp params (checkpoint args) = Ok model ->
  read_sound_files (sound_files args) 16000 = (tr, Ok waves) ->
  batch_features (fbank waves) = Ok (padded, lens) ->
  main args =
    ([Logged (LogParams params); Logged LogDevice; Logged (LogText "Creating model");
      Logged (LogText "Constructing Fbank computer");
      Logged (LogReading (sound_files args))]
       ++ tr
       ++ [Logged (LogText "Decoding started"); FbankCall (length waves); EncoderCall]
       ++ trace loop
       ++ match outcome loop with
          | Ok hyps => [Logged (LogTranscripts (transcript (sound_files args) hyps));
                        Logged (LogText "Decoding Done")]
          | Raise _ => []
          end,
     match outcome loop with Ok _ => Ok tt | Raise e => Raise e end).
Proof.
  intros params enc loop Hsp Hmodel Hread Hbatch.
  unfold main, logging_info. fold params. cbn [cli consts params_update params].
  rewrite Hsp, bind_lift_ok, !bind_emit. cbn [trace outcome fst snd].
  rewrite Hmodel, bind_lift_ok, !bind_emit. cbn [trace outcome fst snd].
  change (sample_rate get_params) with 16000. rewrite Hread.
  cbn [bind]. rewrite !bind_emit. cbn [trace outcome fst snd].
  rewrite Hbatch, bind_lift_ok, bind_emit. cbn [trace outcome fst snd].
  fold enc. destruct enc as [encoder_out encoder_out_lens] eqn:Henc.
  cbn [fst snd] in loop. fold loop.
  rewrite (run_eta loop).
  destruct (outcome loop) as [hyps|e]; cbn [bind trace outcome fst snd].
  - rewrite !bind_emit. reflexivity.
  - by rewrite app_nil_r.
Qed.

(** *** Dispatch and the decoding loop *)

Lemma dispatch_unsupported (params : Params) (model : Transducer) (i : nat)
      (e : Tensor3) :
  method (cli params) <> "greedy_search" ->
  method (cli params) <> "beam_search" ->
  dispatch params model i e =
    ([], Raise (ValueError ("Unsupported method: " +:+ method (cli params)))).
Proof.
  intros Hg Hb. unfold dispatch.
  apply String.eqb_neq in Hg, Hb. by rewrite Hg, Hb.
Qed.

Lemma dispatch_supported (params : Params) (model : Transducer) (i : nat)
      (e : Tensor3) :
  method (cli params) = "greedy_search" \/ method (cli params) = "beam_search" ->
  dispatch params model i e =
    ([if String.eqb (method (cli params)) "greedy_search"
      then GreedySearch i else BeamSearch i],
     Ok (search params model e)).
Proof.
  intros [Hm|Hm]; unfold dispatch, search; by rewrite Hm.
Qed.

Lemma decode_loop_unsupported (params : Params) (sp : SentencePieceProcessor)
      (model : Transducer) (enc : Tensor3) (lens : list Z)
      (i : nat) (rest : list nat) (hyps : list (list string)) :
  method (cli params) <> "greedy_search" ->
  method (cli params) <> "beam_search" ->
  is_Some (lens !! i) ->
  decode_loop params sp model enc lens (i :: rest) hyps =
    ([], Raise (ValueError ("Unsupported method: " +:+ method (cli params)))).
Proof.
  intros Hg Hb [len_i Hlen]. simpl. unfold decode_one, encoder_out_slice.
  rewrite Hlen, bind_lift_ok.
  by rewrite (dispatch_unsupported _ _ _ _ Hg Hb).
Qed.

Lemma decode_one_ok (params : Params) (sp : SentencePieceProcessor)
      (model : Transducer) (enc : Tensor3) (lens : list Z) (i : nat) :
  method (cli params) = "greedy_search" \/ method (cli params) = "beam_search" ->
  is_Some (lens !! i) ->
  decode_one params sp model enc lens i =
    ([if String.eqb (method (cli params)) "greedy_search"
      then GreedySearch i else BeamSearch i; SpDecode i],
     Ok (hyp_of params sp model enc lens i)).
Proof.
  intros Hm [len_i Hlen]. unfold decode_one, hyp_of, encoder_out_slice.
  rewrite Hlen, bind_lift_ok.
  by rewrite (dispatch_supported _ _ _ _ Hm).
Qed.

Lemma decode_loop_ok (params : Params) (sp : SentencePieceProcessor)
      (model : Transducer) (enc : Tensor3) (lens : list Z)
      (indices : list nat) (hyps : list (list string)) :
  method (cli params) = "greedy_search" \/ method (cli params) = "beam_search" ->
  Forall (fun i => is_Some (lens !! i)) indices ->
  outcome (decode_loop params sp model enc lens indices hyps)
    = Ok (hyps ++ map (hyp_of params sp model enc lens) indices) /\
  transcripts_logged (trace (decode_loop params sp model enc lens indices hyps)) = [].
Proof.
  intros Hm Hall. revert hyps.
  induction Hall as [|i indices Hi _ IH]; intros hyps; simpl.
  - by rewrite app_nil_r.
  - rewrite outcome_bind, trace_bind, (decode_one_ok _ _ _ _ _ _ Hm Hi).
    cbn [outcome trace fst snd].
    destruct (IH (hyps ++ [hyp_of params sp model enc lens i])) as [IH1 IH2].
    rewrite IH1. split; [by rewrite <- app_assoc|].
    unfold transcripts_logged in *. rewrite omap_app, IH2.
    by destruct (String.eqb _ _).
Qed.

Lemma transcript_blocks (files : list string) (hyps : list (list string)) :
  transcript files hyps =
    nl +:+ foldr String.append EmptyString (zip_with block files hyps).
Proof.
  unfold transcript. generalize nl as init. revert hyps.
  induction files as [|f files IH]; intros hyps init.
  - simpl. by rewrite string_app_nil_r.
  - destruct hyps as [|h hyps]; simpl; [by rewrite string_app_nil_r|].
    by rewrite IH, string_app_assoc.
Qed.

Lemma batch_features_inv (features : list Tensor2) (padded : Tensor3) (lens : list Z) :
  batch_features features = Ok (padded, lens) ->
  features <> [] /\ batch_size padded = length features /\
  length lens = length features.
Proof.
  unfold batch_features, pad_sequence.
  destruct features as [|s0 rest]; [done|].
  destruct (forallb _ _); [|done].
  intros [= <- <-]. unfold batch_size. simpl.
  by rewrite !length_map.
Qed.

Lemma loads_not_transcripts (files : list string) :
  transcripts_logged (map TorchaudioLoad files) = [].
Proof. by induction files. Qed.

(** C2. A run over the files of the command line, with a supported method,
    a tokenizer and a model that load, files at 16000 Hz, a feature
    extractor that returns one matrix of the same dimension per wave and an
    encoder that keeps the batch size: [main] returns, and logs one
    transcript record, made of one block per file in the order of the
    command line.  Position [i] stays with file [i] all along: wave [i] is
    the first channel of file [i], item [i] of the padded batch starts with
    the rows of the feature matrix of wave [i], and the block at position
    [i] carries the name of file [i] and the words decoded from row [i] of
    the encoder output, cut at its length [i]. *)
Theorem output_order (args : Args) (sp : SentencePieceProcessor) (model : Transducer)
        (waves : list (list float)) (dim : nat) :
  let params := params_update get_params args in
  let files := sound_files args in
  let features := fbank waves in
  files <> [] ->
  (method args = "greedy_search" \/ method args = "beam_search") ->
  spm_load (bpe_model args) = Ok sp ->
  load_model sp params (checkpoint args) = Ok model ->
  Forall2 (fun f w => exists rest, torchaudio_load f = Ok (w :: rest, 16000))
          files waves ->
  length features = length waves ->
  Forall (fun f => t2_dim f = dim) features ->
  (forall x x_lens,
     batch_size (encoder model x x_lens).1 = batch_size x /\
     length (encoder model x x_lens).2 = length x_lens) ->
  exists (padded : Tensor3) (lens : list Z),
    batch_features features = Ok (padded, lens) /\
    let encoder_out := (encoder model padded lens).1 in
    let encoder_out_lens := (encoder model padded lens).2 in
    let hyps := map (hyp_of params sp model encoder_out encoder_out_lens)
                    (seq 0 (length files)) in
    outcome (main args) = Ok tt /\
    transcripts_logged (trace (main args))
      = [nl +:+ foldr String.append EmptyString (zip_with block files hyps)] /\
    length (zip_with block files hyps) = length files /\
    forall (i : nat) (f : string),
      files !! i = Some f ->
      exists (w : list float) (feat : Tensor2) (item : list (list float))
             (len_i : Z) (row_i : list (list float)) (e_i : Tensor3),
        (exists rest, torchaudio_load f = Ok (w :: rest, 16000)) /\
        waves !! i = Some w /\
        features !! i = Some feat /\
        lens !! i = Some (Z.of_nat (size0 feat)) /\
        t3_data padded !! i = Some item /\
        take (size0 feat) item = t2_rows feat /\
        encoder_out_lens !! i = Some len_i /\
        t3_data encoder_out !! i = Some row_i /\
        encoder_out_slice encoder_out encoder_out_lens i = Ok e_i /\
        t3_data e_i = [slice_to row_i len_i] /\
        zip_with block files hyps !! i
          = Some (block f (str_split (sp_decode sp (search params model e_i)))).
Proof.
  intros params files features Hne Hm Hsp Hmodel Hload Hlen Hdim Henc.
  assert (Hwaves : length files = length waves) by (by eapply Forall2_length).
  assert (Hfne : features <> []).
  { intros Hnil. rewrite Hnil in Hlen. simpl in Hlen.
    destruct files; [done|]. simpl in Hwaves. lia. }
  pose (padded :=
          {| t3_size1 := max_length features;
             t3_size2 := dim;
             t3_data := map (fun t => copy_rows
                                        (full (max_length features) dim padding_value)
                                        (t2_rows t)) features |}).
  assert (Hbatch : batch_features features
                   = Ok (padded, map (fun f => Z.of_nat (size0 f)) features)).
  { unfold batch_features.
    by rewrite (pad_sequence_ok features dim _ Hfne Hdim). }
  destruct (batch_features_inv _ _ _ Hbatch) as (_ & Hsize & _).
  exists padded, (map (fun f => Z.of_nat (size0 f)) features).
  split; [done|]. intros encoder_out encoder_out_lens hyps.
  destruct (Henc padded (map (fun f => Z.of_nat (size0 f)) features))
    as [Hrows Hlens].
  fold encoder_out in Hrows. fold encoder_out_lens in Hlens.
  rewrite length_map in Hlens.
  assert (Hn : batch_size encoder_out = length files) by congruence.
  assert (Hl : length encoder_out_lens = length files) by congruence.
  assert (Hall : Forall (fun i => is_Some (encoder_out_lens !! i))
                        (seq 0 (length files))).
  { apply Forall_forall. intros i Hi. apply elem_of_seq in Hi.
    apply lookup_lt_is_Some. lia. }
  destruct (decode_loop_ok params sp model encoder_out encoder_out_lens
              (seq 0 (length files)) [] Hm Hall) as [Hout Htr].
  rewrite (main_unfold args sp model _ waves padded _ Hsp Hmodel
             (read_sound_files_ok _ _ _ Hload) Hbatch).
  fold params encoder_out encoder_out_lens. rewrite Hn, Hout.
  cbn [outcome trace fst snd app].
  split; [done|]. split.
  { unfold transcripts_logged in *. cbn [omap list_omap].
    rewrite omap_app. fold (transcripts_logged (map TorchaudioLoad (sound_files args))).
    rewrite loads_not_transcripts. cbn [omap list_omap app].
    rewrite omap_app, Htr. cbn [omap list_omap app].
    by rewrite transcript_blocks. }
  assert (Hhyps : length hyps = length files).
  { unfold hyps. by rewrite length_map, length_seq. }
  split; [rewrite length_zip_with; lia|].
  intros i f Hi.
  assert (Hlt : (i < length files)%nat) by (by eapply lookup_lt_Some).
  destruct (lookup_lt_is_Some_2 encoder_out_lens i) as [len_i Hlen_i]; [lia|].
  destruct (lookup_lt_is_Some_2 (t3_data encoder_out) i) as [row_i Hrow_i];
    [unfold batch_size in Hn; lia|].
  destruct (Forall2_lookup_l _ _ _ _ _ Hload Hi) as (w & Hw & Hfile).
  destruct (lookup_lt_is_Some_2 features i) as [feat Hfeat]; [lia|].
  exists w, feat, (copy_rows (full (max_length features) dim padding_value)
                             (t2_rows feat)), len_i, row_i.
  eexists. split; [done|]. split; [done|]. split; [done|].
  split; [by rewrite list_lookup_fmap, Hfeat|].
  split; [simpl; by rewrite list_lookup_fmap, Hfeat|].
  split; [apply copy_rows_valid|].
  split; [done|]. split; [done|].
  split; [unfold encoder_out_slice; by rewrite Hlen_i|].
  split.
  { simpl. by rewrite (drop_S _ _ _ Hrow_i). }
  rewrite lookup_zip_with, Hi. simpl.
  unfold hyps. rewrite list_lookup_fmap, lookup_seq_lt by done. simpl.
  unfold hyp_of, encoder_out_slice. by rewrite Hlen_i.
Qed.

(** C3. With a [--method] other than the two supported ones and an encoder
    that keeps the batch size: dispatch raises [ValueError] without
    running a strategy; the decoding loop raises it at its first index;
    every run of [main] raises, runs no strategy and no detokenizer, and
    logs no transcript record; and a run whose loading and batching
    succeed raises that [ValueError]. *)
Theorem unsupported_method (args : Args) :
  let params := params_update get_params args in
  let err := ValueError ("Unsupported method: " +:+ method args) in
  method args <> "greedy_search" ->
  method args <> "beam_search" ->
  (forall model x x_lens,
     batch_size (encoder model x x_lens).1 = batch_size x /\
     length (encoder model x x_lens).2 = length x_lens) ->
  (forall model i e, dispatch params model i e = ([], Raise err)) /\
  (forall sp model enc lens i rest hyps,
     is_Some (lens !! i) ->
     decode_loop params sp model enc lens (i :: rest) hyps = ([], Raise err)) /\
  (exists e, outcome (main args) = Raise e) /\
  Forall (fun ev => is_decoding ev = false) (trace (main args)) /\
  transcripts_logged (trace (main args)) = [] /\
  (forall sp model waves padded lens,
     spm_load (bpe_model args) = Ok sp ->
     load_model sp params (checkpoint args) = Ok model ->
     Forall2 (fun f w => exists rest, torchaudio_load f = Ok (w :: rest, 16000))
             (sound_files args) waves ->
     batch_features (fbank waves) = Ok (padded, lens) ->
     outcome (main args) = Raise err).
Proof.
  intros params err Hg Hb Henc.
  assert (Hloop : forall sp model tr waves padded lens,
             spm_load (bpe_model args) = Ok sp ->
             load_model sp params (checkpoint args) = Ok model ->
             read_sound_files (sound_files args) 16000 = (tr, Ok waves) ->
             batch_features (fbank waves) = Ok (padded, lens) ->
             main args =
               ([Logged (LogParams params); Logged LogDevice;
                 Logged (LogText "Creating model");
                 Logged (LogText "Constructing Fbank computer");
                 Logged (LogReading (sound_files args))]
                  ++ tr
                  ++ [Logged (LogText "Decoding started"); FbankCall (length waves);
                      EncoderCall],
                Raise err)).
  { intros sp model tr waves padded lens Hsp Hmodel Hread Hbatch.
    rewrite (main_unfold args sp model tr waves padded lens Hsp Hmodel Hread Hbatch).
    fold params.
    destruct (batch_features_inv _ _ _ Hbatch) as (Hne & Hsize & Hlens).
    destruct (Henc model padded lens) as [Hrows Hl].
    destruct (encoder model padded lens) as [encoder_out encoder_out_lens].
    cbn [fst snd] in *.
    assert (Hpos : (0 < length (fbank waves))%nat).
    { destruct (fbank waves); [done|simpl; lia]. }
    destruct (batch_size encoder_out) as [|n] eqn:Hn; [lia|].
    cbn [seq].
    rewrite (decode_loop_unsupported params sp model encoder_out encoder_out_lens
               0%nat (seq 1 n) [] Hg Hb)
      by (apply lookup_lt_is_Some; lia).
    cbn [trace outcome fst snd]. by rewrite !app_nil_r. }
  split; [intros model i e; by apply dispatch_unsupported|].
  split; [intros sp model enc lens i rest hyps Hi; by apply decode_loop_unsupported|].
  assert (Hany : (exists e, outcome (main args) = Raise e) /\
                 Forall (fun ev => is_decoding ev = false) (trace (main args)) /\
                 transcripts_logged (trace (main args)) = []).
  { destruct (outcome (read_sound_files (sound_files args) (sample_rate get_params)))
      as [waves|e] eqn:Hread.
    2:{ destruct (main_stops_at_loading args e Hread) as [Hex Hquiet].
        split; [done|]. by apply after_loading_false. }
    destruct (spm_load (bpe_model args)) as [sp|e1] eqn:Hsp.
    2:{ unfold main. cbn [cli params_update]. rewrite Hsp.
        split; [by eexists|]. split; [constructor|done]. }
    destruct (load_model sp params (checkpoint args)) as [model|e2] eqn:Hmodel.
    2:{ unfold main, logging_info. fold params. cbn [cli params_update params].
        rewrite Hsp, bind_lift_ok, !bind_emit. cbn [trace outcome fst snd].
        rewrite Hmodel. split; [by eexists|]. split; [by repeat constructor|done]. }
    pose proof (run_eta (read_sound_files (sound_files args) 16000)) as Heta.
    change (sample_rate get_params) with 16000 in Hread. rewrite Hread in Heta.
    pose proof (read_sound_files_trace (sound_files args) 16000) as Htr.
    apply after_loading_false in Htr as [Htr1 Htr2].
    destruct (batch_features (fbank waves)) as [[padded lens]|e3] eqn:Hbatch.
    - rewrite (Hloop sp model _ waves padded lens eq_refl Hmodel Heta Hbatch).
      cbn [trace outcome fst snd]. split; [by eexists|]. split.
      + repeat (constructor; [done|]).
        apply Forall_app. split; [done|]. by repeat constructor.
      + unfold transcripts_logged in *. cbn [omap list_omap app].
        by rewrite omap_app, Htr2.
    - unfold main, logging_info. fold params. cbn [cli consts params_update params].
      rewrite Hsp, bind_lift_ok, !bind_emit. cbn [trace outcome fst snd].
      rewrite Hmodel, bind_lift_ok, !bind_emit. cbn [trace outcome fst snd].
      change (sample_rate get_params) with 16000. rewrite Heta.
      cbn [bind]. rewrite !bind_emit. cbn [trace outcome fst snd].
      rewrite Hbatch. cbn [lift bind trace outcome fst snd].
      split; [by eexists|]. split.
      + repeat (constructor; [done|]).
        apply Forall_app. split; [done|]. by repeat constructor.
      + unfold transcripts_logged in *. cbn [omap list_omap app].
        by rewrite omap_app, Htr2. }
  destruct Hany as (H1 & H2 & H3).
  repeat (split; [done|]).
  intros sp model waves padded lens Hsp Hmodel Hload Hbatch.
  by rewrite (Hloop sp model _ waves padded lens Hsp Hmodel
                (read_sound_files_ok _ _ _ Hload) Hbatch).
Qed.

End Facts.

(** *** The theorems at the stand-in *)

Import PretrainedStub.


Lemma stub_loads :
  Forall2 (fun f w => exists rest, torchaudio_load (Externals := stub) f
                                     = Ok (w :: rest, 16000))
          ["a.wav"; "b.wav"]%string
          [[1%float; 2%float; 3%float]; [4%float]].
Proof. repeat constructor; eexists; reflexivity. Qed.

Lemma stub_encoder_keeps_batch (model : unit) (x : Tensor3) (x_lens : list Z) :
  batch_size (encoder (Externals := stub) model x x_lens).1 = batch_size x /\
  length (encoder (Externals := stub) model x x_lens).2 = length x_lens.
Proof. split; reflexivity. Qed.

Lemma output_order_witness :
  outcome (main (ext := stub) (run_args "greedy_search" ["a.wav"; "b.wav"])) = Ok tt /\
  transcripts_logged
    (trace (main (ext := stub) (run_args "greedy_search" ["a.wav"; "b.wav"])))
  = [nl +:+ "a.wav:" +:+ nl +:+ "three frames" +:+ nl +:+ nl
        +:+ "b.wav:" +:+ nl +:+ "one frame" +:+ nl +:+ nl].
Proof.
  destruct (output_order (ext := stub)
              (run_args "greedy_search" ["a.wav"; "b.wav"]) tt tt
              [[1%float; 2%float; 3%float]; [4%float]] 1)
    as (padded & lens & Hb & Hout & Hlog & _).
  - discriminate.
  - left; reflexivity.
  - reflexivity.
  - reflexivity.
  - exact stub_loads.
  - reflexivity.
  - repeat constructor.
  - exact (stub_encoder_keeps_batch tt).
  - split; [exact Hout|].
    injection Hb as <- <-. exact Hlog.
Defined.

Lemma unsupported_method_witness :
  outcome (main (ext := stub) (run_args "ctc-decoding" ["a.wav"; "b.wav"]))
    = Raise (ValueError "Unsupported method: ctc-decoding") /\
  transcripts_logged
    (trace (main (ext := stub) (run_args "ctc-decoding" ["a.wav"; "b.wav"]))) = [].
Proof.
  destruct (unsupported_method (ext := stub)
              (run_args "ctc-decoding" ["a.wav"; "b.wav"]))
    as (_ & _ & _ & _ & Hlog & Herr).
  - discriminate.
  - discriminate.
  - exact stub_encoder_keeps_batch.
  - split; [|exact Hlog].
    eapply (Herr tt tt); [reflexivity | reflexivity | exact stub_loads | reflexivity].
Defined.

Lemma sample_rate_check_witness :
  read_sound_files (ext := stub) ["a.wav"; "c.wav"; "b.wav"] 16000
    = ([TorchaudioLoad "a.wav"; TorchaudioLoad "c.wav"],
       Raise (AssertionError "expected sample rate: 16000. Given: 8000")) /\
  (exists e, outcome (main (ext := stub)
                        (run_args "greedy_search" ["a.wav"; "c.wav"; "b.wav"]))
             = Raise e).
Proof.
  destruct (sample_rate_check (ext := stub) ["a.wav"; "c.wav"; "b.wav"])
    as (_ & _ & Hbad & Hfirst).
  split.
  - apply (Hfirst ["a.wav"%string] [[1%float; 2%float; 3%float]] "c.wav"%string
             ["b.wav"%string] [[5%float; 6%float]] 8000).
    + reflexivity.
    + repeat constructor. eexists; reflexivity.
    + reflexivity.
    + discriminate.
  - apply Hbad; [|reflexivity].
    apply Exists_cons_tl, Exists_cons_hd.
    exists [[5%float; 6%float]], 8000. split; [reflexivity | discriminate].
Defined.

End PretrainedSpec.

(** ** The feature cache *)

Module ComputeFbankMucsSpec.
Import ComputeFbankMucs.

(** The two paths of a partition. *)
Example partition_paths :
  path_join "data/fbank" (cuts_filename "train")
    = "data/fbank/mucs_cuts_train.jsonl.gz" /\
  storage_path "data/fbank" "train" = "data/fbank/mucs_feats_train".
Proof. split; reflexivity. Qed.

Section Facts.

Context `{ext : Externals}.

Local Abbreviation FS := (gmap string (file CutSet Blob)).

Lemma io_bind_unfold {A B} (m : io A) (k : A -> io B) (fs : FS) :
  io_bind m k fs =
    match raised (m fs) with
    | Ok a => (final_fs (k a (final_fs (m fs))),
               events (m fs) ++ events (k a (final_fs (m fs))),
               raised (k a (final_fs (m fs))))
    | Raise e => (final_fs (m fs), events (m fs), Raise e)
    end.
Proof.
  unfold io_bind, final_fs, events, raised.
  destruct (m fs) as [[fs1 t1] [a|e]]; simpl; [|done].
  by destruct (k a fs1) as [[fs2 t2] r].
Qed.

(** The artifact of a partition and the feature store of any partition
    are different paths. *)
Lemma cuts_path_not_storage (output_dir p q : string) :
  path_join output_dir (cuts_filename p) <> storage_path output_dir q.
Proof.
  unfold path_join, cuts_filename, storage_path, prefix, suffix.
  intros H. apply (inj (String.app output_dir)) in H.
  cbv in H. discriminate.
Qed.

Ltac unfold_partition :=
  unfold process_partition, io_bind, is_file, logging_info, io_emit, io_lift,
    do_compute, do_to_file.

(** A partition whose artifact exists, whatever it holds. *)
Lemma process_partition_skip (output_dir : string) (extractor : FbankConfig)
      (num_jobs : Z) (ex : option Executor) (partition : string)
      (m : gmap string Manifest) (fs : FS) :
  is_Some (fs !! path_join output_dir (cuts_filename partition)) ->
  process_partition output_dir extractor num_jobs ex (partition, m) fs
    = (fs, [Logged (LogSkip partition)], Ok tt).
Proof.
  intros Hex. unfold_partition.
  by rewrite bool_decide_eq_true_2.
Qed.

(** A partition whose artifact is absent, when every step succeeds. *)
Lemma process_partition_run (output_dir : string) (extractor : FbankConfig)
      (num_jobs : Z) (ex : option Executor) (partition : string)
      (m : gmap string Manifest) (fs : FS)
      (recordings supervisions : Manifest) (cuts computed trimmed : CutSet)
      (written : option Blob) :
  let cuts_path := path_join output_dir (cuts_filename partition) in
  let storage := storage_path output_dir partition in
  fs !! cuts_path = None ->
  m !! "recordings" = Some recordings ->
  m !! "supervisions" = Some supervisions ->
  from_manifests recordings supervisions = Ok cuts ->
  compute_and_store_features cuts extractor storage (jobs_for num_jobs ex) ex
    = (written, Ok computed) ->
  trim_to_supervisions computed false None false = Ok trimmed ->
  to_file trimmed cuts_path = Written ->
  process_partition output_dir extractor num_jobs ex (partition, m) fs
    = (<[cuts_path := CutsFile trimmed]>
         (match written with
          | Some blob => <[storage := FeatsStore blob]> fs
          | None => fs
          end),
       [Logged (LogProcessing partition); FromManifests partition;
        ComputeFeatures partition storage (jobs_for num_jobs ex);
        Trim partition false None false; ToFile cuts_path],
       Ok tt).
Proof.
  intros cuts_path storage Habs Hrec Hsup Hfrom Hcomp Htrim Hwrite.
  unfold_partition. fold cuts_path storage.
  rewrite bool_decide_eq_false_2 by (rewrite Habs; by intros [? ?]).
  unfold getitem. rewrite Hrec, Hsup, Hfrom, Hcomp, Htrim, Hwrite.
  reflexivity.
Qed.

(** Whatever happens, a partition's step deletes nothing. *)
Lemma process_partition_keeps (output_dir : string) (extractor : FbankConfig)
      (num_jobs : Z) (ex : option Executor)
      (item : string * gmap string Manifest) (fs : FS) (path : string) :
  is_Some (fs !! path) ->
  is_Some (final_fs (process_partition output_dir extractor num_jobs ex item fs)
             !! path).
Proof.
  intros Hex. destruct item as [partition m]. unfold_partition.
  repeat case_match; simplify_eq; unfold final_fs; simpl;
    repeat (rewrite lookup_insert; case_decide); done.
Qed.

(** A step that returns leaves the partition's artifact in place. *)
Lemma process_partition_marks (output_dir : string) (extractor : FbankConfig)
      (num_jobs : Z) (ex : option Executor) (partition : string)
      (m : gmap string Manifest) (fs : FS) :
  raised (process_partition output_dir extractor num_jobs ex (partition, m) fs)
    = Ok tt ->
  is_Some (final_fs (process_partition output_dir extractor num_jobs ex
                                       (partition, m) fs)
             !! path_join output_dir (cuts_filename partition)).
Proof.
  unfold_partition.
  repeat case_match; simplify_eq; unfold final_fs, raised; simpl;
    intros Hok; try done;
    first [by eapply bool_decide_eq_true_1 | by rewrite lookup_insert_eq].
Qed.

(** *** The loop over the partitions *)

Lemma partition_loop_cons (output_dir : string) (extractor : FbankConfig)
      (num_jobs : Z) (ex : option Executor)
      (item : string * gmap string Manifest)
      (rest : list (string * gmap string Manifest)) (fs : FS) :
  let r := process_partition output_dir extractor num_jobs ex item fs in
  partition_loop output_dir extractor num_jobs ex (item :: rest) fs =
    match raised r with
    | Ok _ =>
        let r' := partition_loop output_dir extractor num_jobs ex rest (final_fs r) in
        (final_fs r', events r ++ events r', raised r')
    | Raise e => (final_fs r, events r, Raise e)
    end.
Proof. simpl. by rewrite io_bind_unfold. Qed.

Lemma partition_loop_skip_all (output_dir : string) (extractor : FbankConfig)
      (num_jobs : Z) (ex : option Executor)
      (manifests : list (string * gmap string Manifest)) (fs : FS) :
  Forall (fun item => is_Some (fs !! path_join output_dir (cuts_filename item.1)))
         manifests ->
  partition_loop output_dir extractor num_jobs ex manifests fs
    = (fs, map (fun item => Logged (LogSkip item.1)) manifests, Ok tt).
Proof.
  induction 1 as [|[partition m] rest Hex _ IH]; [done|].
  rewrite partition_loop_cons. cbn zeta.
  rewrite (process_partition_skip _ _ _ _ _ _ _ Hex).
  unfold raised, final_fs, events. cbn [fst snd]. by rewrite IH.
Qed.

Lemma partition_loop_keeps (output_dir : string) (extractor : FbankConfig)
      (num_jobs : Z) (ex : option Executor)
      (manifests : list (string * gmap string Manifest)) (fs : FS) (path : string) :
  is_Some (fs !! path) ->
  is_Some (final_fs (partition_loop output_dir extractor num_jobs ex manifests fs)
             !! path).
Proof.
  revert fs. induction manifests as [|item rest IH]; intros fs Hex; [done|].
  rewrite partition_loop_cons. cbn zeta.
  pose proof (process_partition_keeps output_dir extractor num_jobs ex item fs
                path Hex) as Hstep.
  destruct (raised (process_partition _ _ _ _ item fs)); [|done].
  by apply IH.
Qed.

Lemma partition_loop_marks (output_dir : string) (extractor : FbankConfig)
      (num_jobs : Z) (ex : option Executor)
      (manifests : list (string * gmap string Manifest)) (fs : FS) :
  raised (partition_loop output_dir extractor num_jobs ex manifests fs) = Ok tt ->
  Forall (fun item =>
            is_Some (final_fs (partition_loop output_dir extractor num_jobs ex
                                              manifests fs)
                       !! path_join output_dir (cuts_filename item.1)))
         manifests.
Proof.
  revert fs. induction manifests as [|[partition m] rest IH]; intros fs; [constructor|].
  rewrite partition_loop_cons. cbn zeta.
  pose proof (process_partition_marks output_dir extractor num_jobs ex
                partition m fs) as Hmark.
  destruct (raised (process_partition _ _ _ _ (partition, m) fs)) as [[]|e];
    [|done].
  intros Hok. constructor.
  - apply partition_loop_keeps. by apply Hmark.
  - by apply IH.
Qed.

Lemma partition_loop_events (P : event -> Prop) (output_dir : string)
      (extractor : FbankConfig) (num_jobs : Z) (ex : option Executor)
      (manifests : list (string * gmap string Manifest)) (fs : FS) :
  (forall item fs', Forall P (events (process_partition output_dir extractor
                                                        num_jobs ex item fs'))) ->
  Forall P (events (partition_loop output_dir extractor num_jobs ex manifests fs)).
Proof.
  intros Hstep. revert fs.
  induction manifests as [|item rest IH]; intros fs; [constructor|].
  rewrite partition_loop_cons. cbn zeta.
  destruct (raised (process_partition _ _ _ _ item fs)); unfold events at 1;
    cbn [fst snd]; [|apply Hstep].
  apply Forall_app. split; [apply Hstep|apply IH].
Qed.

Lemma process_partition_events (output_dir : string) (extractor : FbankConfig)
      (num_jobs : Z) (ex : option Executor)
      (item : string * gmap string Manifest) (fs : FS) :
  Forall (fun ev => is_loop_event ev = true /\ computes_with (jobs_for num_jobs ex) ev)
         (events (process_partition output_dir extractor num_jobs ex item fs)).
Proof.
  destruct item as [partition m]. unfold_partition.
  repeat case_match; simplify_eq; unfold events; simpl; by repeat constructor.
Qed.

(** The artifact of a partition appears only through [to_file]. *)
Lemma process_partition_absent (output_dir : string) (extractor : FbankConfig)
      (num_jobs : Z) (ex : option Executor)
      (item : string * gmap string Manifest) (fs : FS) (p : string) :
  let path := path_join output_dir (cuts_filename p) in
  let r := process_partition output_dir extractor num_jobs ex item fs in
  fs !! path = None ->
  Forall (fun ev => writes_to path ev = false) (events r) ->
  final_fs r !! path = None.
Proof.
  intros path r Habs. subst r. destruct item as [partition m]. unfold_partition.
  pose proof (cuts_path_not_storage output_dir p partition) as Hne.
  fold path in Hne.
  repeat case_match; simplify_eq; unfold events, final_fs; simpl; intros Hev;
    rewrite ?Forall_cons in Hev; simpl in Hev;
    repeat match goal with
           | H : _ /\ _ |- _ => destruct H
           | H : String.eqb _ _ = false |- _ => apply String.eqb_neq in H
           end;
    rewrite ?lookup_insert_ne by done; done.
Qed.

Lemma partition_loop_absent (output_dir : string) (extractor : FbankConfig)
      (num_jobs : Z) (ex : option Executor)
      (manifests : list (string * gmap string Manifest)) (fs : FS) (p : string) :
  let path := path_join output_dir (cuts_filename p) in
  let r := partition_loop output_dir extractor num_jobs ex manifests fs in
  fs !! path = None ->
  Forall (fun ev => writes_to path ev = false) (events r) ->
  final_fs r !! path = None.
Proof.
  intros path. cbn zeta. revert fs.
  induction manifests as [|item rest IH]; intros fs Habs; [done|].
  rewrite partition_loop_cons. cbn zeta.
  pose proof (process_partition_absent output_dir extractor num_jobs ex item fs p
                Habs) as Hstep. cbn zeta in Hstep. fold path in Hstep.
  destruct (raised (process_partition _ _ _ _ item fs));
    unfold events at 1, final_fs at 1; cbn [fst snd]; [|done].
  intros [H1 H2]%Forall_app. apply IH; [by apply Hstep|done].
Qed.

(** *** The whole function *)

(** Either the function stops before its loop, the same way from every
    directory, or it is the loop run on the manifests read. *)
Lemma compute_fbank_mucs_shape (args : Args) (bpe dset : option string) :
  (exists (t : list event) (e : exn),
     Forall (fun ev => is_processing ev = false /\ reads_all_parts ev) t /\
     forall fs : FS, compute_fbank_mucs args bpe dset fs = (fs, t, Raise e)) \/
  (exists (src_dir output_dir : string) (c : Z)
          (manifests : list (string * gmap string Manifest)),
     manifestpath args = Some src_dir /\
     fbankpath args = Some output_dir /\
     os_cpu_count = Some c /\
     match truthy bpe with Some path => spm_load path = Ok tt | None => True end /\
     read_manifests_if_cached dataset_parts src_dir prefix suffix
       = Ok (Some manifests) /\
     length manifests = 3%nat /\
     forall fs : FS,
       let r := partition_loop output_dir {| num_mel_bins := 80 |} (Z.min 48 c)
                               get_executor manifests fs in
       compute_fbank_mucs args bpe dset fs =
         (final_fs r,
          bpe_events bpe ++ ReadManifests dataset_parts src_dir prefix suffix
            :: events r,
          raised r)).
Proof.
  unfold compute_fbank_mucs, load_bpe, bpe_events.
  destruct (manifestpath args) as [src_dir|];
    [|left; exists [], TypeError; split; [constructor|done]].
  destruct (fbankpath args) as [output_dir|];
    [|left; exists [], TypeError; split; [constructor|done]].
  destruct os_cpu_count as [c|] eqn:Hcpu;
    [|left; exists [], TypeError; split; [constructor|done]].
  destruct (truthy bpe) as [path|] eqn:Hbpe.
  - destruct (spm_load path) as [[]|e] eqn:Hload.
    2:{ left. exists [Logged (LogLoading path); SpLoad path], e.
        split; [by repeat constructor|].
        intros fs. unfold io_bind, io_lift, logging_info, io_emit. simpl.
        by rewrite ?Hload. }
    destruct (read_manifests_if_cached dataset_parts src_dir prefix suffix)
      as [[manifests|]|e] eqn:Hread.
    + destruct (decide (length manifests = 3%nat)) as [Hlen|Hlen].
      * right. exists src_dir, output_dir, c, manifests.
        repeat (split; [done|]). intros fs.
        unfold io_bind, io_lift, logging_info, io_emit. simpl.
        rewrite ?Hload, ?Hread. simpl. rewrite Hlen. simpl.
        by destruct (partition_loop _ _ _ _ _ _) as [[fs' t'] res].
      * left. eexists _, _. split; [|intros fs].
        2:{ unfold io_bind, io_lift, logging_info, io_emit, io_raise. simpl.
            rewrite ?Hload, ?Hread. simpl.
            apply Nat.eqb_neq in Hlen. rewrite Hlen. reflexivity. }
        by repeat constructor.
    + left. eexists _, _. split; [|intros fs].
      2:{ unfold io_bind, io_lift, logging_info, io_emit, io_raise. simpl.
          rewrite ?Hload, ?Hread. reflexivity. }
      by repeat constructor.
    + left. eexists _, _. split; [|intros fs].
      2:{ unfold io_bind, io_lift, logging_info, io_emit, io_raise. simpl.
          rewrite ?Hload, ?Hread. reflexivity. }
      by repeat constructor.
  - destruct (read_manifests_if_cached dataset_parts src_dir prefix suffix)
      as [[manifests|]|e] eqn:Hread.
    + destruct (decide (length manifests = 3%nat)) as [Hlen|Hlen].
      * right. exists src_dir, output_dir, c, manifests.
        repeat (split; [done|]). intros fs.
        unfold io_bind, io_lift, io_ret, io_emit. simpl.
        rewrite ?Hread. simpl. rewrite Hlen. simpl.
        by destruct (partition_loop _ _ _ _ _ _) as [[fs' t'] res].
      * left. eexists _, _. split; [|intros fs].
        2:{ unfold io_bind, io_lift, io_ret, io_emit, io_raise. simpl.
            rewrite ?Hread. simpl.
            apply Nat.eqb_neq in Hlen. rewrite Hlen. reflexivity. }
        by repeat constructor.
    + left. eexists _, _. split; [|intros fs].
      2:{ unfold io_bind, io_lift, io_ret, io_emit, io_raise. simpl.
          rewrite ?Hread. reflexivity. }
      by repeat constructor.
    + left. eexists _, _. split; [|intros fs].
      2:{ unfold io_bind, io_lift, io_ret, io_emit, io_raise. simpl.
          rewrite ?Hread. reflexivity. }
      by repeat constructor.
Qed.

Lemma skips_not_processing (manifests : list (string * gmap string Manifest)) :
  Forall (fun ev => is_processing ev = false)
         (map (fun item => Logged (LogSkip item.1)) manifests).
Proof. induction manifests; by constructor. Qed.

Lemma bpe_events_not_processing (bpe : option string) :
  Forall (fun ev => is_processing ev = false) (bpe_events bpe).
Proof. unfold bpe_events. destruct (truthy bpe); by repeat constructor. Qed.

(** The manifests are read before the loop looks at a partition: the events
    of a call hold no event of the loop, or they are the loading of the
    tokenizer, the read of the manifests, and then the events of the
    loop. *)
Lemma compute_fbank_mucs_before_loop (args : Args) (bpe dset : option string)
      (fs : FS) :
  Forall (fun ev => is_loop_event ev = false)
         (events (compute_fbank_mucs args bpe dset fs)) \/
  exists (src_dir : string) (rest : list event),
    events (compute_fbank_mucs args bpe dset fs)
      = bpe_events bpe ++ ReadManifests dataset_parts src_dir prefix suffix :: rest /\
    Forall (fun ev => is_loop_event ev = true) rest.
Proof.
  assert (Hloop : forall output_dir c manifests (fs' : FS),
             Forall (fun ev => is_loop_event ev = true)
                    (events (partition_loop output_dir {| num_mel_bins := 80 |}
                               (Z.min 48 c) get_executor manifests fs'))).
  { intros output_dir c manifests fs'. apply partition_loop_events.
    intros item fs''.
    eapply Forall_impl; [apply process_partition_events|]. by intros ev [Hev _]. }
  unfold compute_fbank_mucs, load_bpe, bpe_events.
  destruct (manifestpath args) as [src_dir|]; [|left; constructor].
  destruct (fbankpath args) as [output_dir|]; [|left; constructor].
  destruct os_cpu_count as [c|]; [|left; constructor].
  unfold events, io_bind, io_lift, io_ret, io_emit, io_raise, logging_info.
  destruct (truthy bpe) as [path|]; simpl.
  - destruct (spm_load path) as [[]|e]; [|left; by repeat constructor].
    destruct (read_manifests_if_cached dataset_parts src_dir prefix suffix)
      as [[manifests|]|e]; simpl; [|left; by repeat constructor..].
    destruct (length manifests =? _)%nat; [|left; by repeat constructor].
    right. exists src_dir.
    specialize (Hloop output_dir c manifests fs). unfold events in Hloop.
    destruct (partition_loop _ _ _ _ _ _) as [[fs' t'] res]. by exists t'.
  - destruct (read_manifests_if_cached dataset_parts src_dir prefix suffix)
      as [[manifests|]|e]; simpl; [|left; by repeat constructor..].
    destruct (length manifests =? _)%nat; [|left; by repeat constructor].
    right. exists src_dir.
    specialize (Hloop output_dir c manifests fs). unfold events in Hloop.
    destruct (partition_loop _ _ _ _ _ _) as [[fs' t'] res]. by exists t'.
Qed.

(** C5, as the code has it.  A partition whose artifact exists, whatever
    the artifact holds, is skipped by the loop: the directory is left as it
    is and the step only logs the skip, with no cut set built, no feature
    computation, no trimming and no write.  The manifests are loaded all
    the same: from every directory, a call that looks at a partition at all
    has read the manifests of [train], [test] and [dev] before the first
    event of the loop.  After a call that returned, a second call over the
    same manifests returns too, leaves the directory unchanged and
    performs no step of processing. *)
Theorem cache_idempotent (args : Args) (bpe dset : option string) (fs0 : FS) :
  (forall output_dir extractor num_jobs ex partition m (fs : FS) content,
     fs !! path_join output_dir (cuts_filename partition) = Some content ->
     process_partition output_dir extractor num_jobs ex (partition, m) fs
       = (fs, [Logged (LogSkip partition)], Ok tt)) /\
  (Forall (fun ev => is_loop_event ev = false)
          (events (compute_fbank_mucs args bpe dset fs0)) \/
   exists (src_dir : string) (rest : list event),
     events (compute_fbank_mucs args bpe dset fs0)
       = bpe_events bpe
           ++ ReadManifests ["train"; "test"; "dev"] src_dir "mucs" "jsonl.gz"
           :: rest /\
     Forall (fun ev => is_bpe_loading ev = true) (bpe_events bpe) /\
     Forall (fun ev => is_loop_event ev = true) rest) /\
  (raised (compute_fbank_mucs args bpe dset fs0) = Ok tt ->
   let fs1 := final_fs (compute_fbank_mucs args bpe dset fs0) in
   final_fs (compute_fbank_mucs args bpe dset fs1) = fs1 /\
   raised (compute_fbank_mucs args bpe dset fs1) = Ok tt /\
   Forall (fun ev => is_processing ev = false)
          (events (compute_fbank_mucs args bpe dset fs1)) /\
   exists src_dir,
     ReadManifests dataset_parts src_dir prefix suffix
       ∈ events (compute_fbank_mucs args bpe dset fs1)).
Proof.
  split.
  { intros output_dir extractor num_jobs ex partition m fs content Hex.
    apply process_partition_skip. by eexists. }
  split.
  { destruct (compute_fbank_mucs_before_loop args bpe dset fs0)
      as [Hnone|(src_dir & rest & Hev & Hrest)]; [by left|].
    right. exists src_dir, rest. split; [exact Hev|]. split; [|exact Hrest].
    unfold bpe_events. destruct (truthy bpe); by repeat constructor. }
  intros Hok fs1.
  destruct (compute_fbank_mucs_shape args bpe dset)
    as [(t & e & _ & Hstop)|(src_dir & output_dir & c & manifests & _ & _ & _ & _
                               & _ & _ & Hrun)].
  { by rewrite Hstop in Hok. }
  subst fs1. cbn zeta in Hrun.
  rewrite (Hrun fs0) in Hok |- *. unfold raised, final_fs in Hok |- *.
  cbn [fst snd] in Hok |- *.
  pose proof (partition_loop_marks _ _ _ _ _ _ Hok) as Hmarks.
  rewrite Hrun.
  rewrite (partition_loop_skip_all _ _ _ _ _ _ Hmarks).
  unfold events. cbn [fst snd].
  repeat split.
  - apply Forall_app. split; [apply bpe_events_not_processing|].
    constructor; [done|]. apply skips_not_processing.
  - exists src_dir. apply elem_of_app. right. left.
Qed.


(** C7. A partition whose artifact is absent and whose steps all succeed:
    the cut set is built from the manifests, features are computed, the
    result is trimmed with [keep_overlapping=False], [min_duration=None],
    [keep_all_channels=False], and the trimmed cut set is what [to_file]
    writes at [<prefix>_cuts_<partition>.<suffix>], as the last of the
    steps; from then on the partition is skipped. *)
Theorem trimmed_cuts_persisted (output_dir : string) (extractor : FbankConfig)
        (num_jobs : Z) (ex : option Executor) (partition : string)
        (m : gmap string Manifest) (fs : FS)
        (recordings supervisions : Manifest) (cuts computed trimmed : CutSet)
        (written : option Blob) :
  let cuts_path := output_dir +:+ "/" +:+ "mucs_cuts_" +:+ partition +:+ ".jsonl.gz" in
  let storage := storage_path output_dir partition in
  let r := process_partition output_dir extractor num_jobs ex (partition, m) fs in
  fs !! cuts_path = None ->
  m !! "recordings" = Some recordings ->
  m !! "supervisions" = Some supervisions ->
  from_manifests recordings supervisions = Ok cuts ->
  compute_and_store_features cuts extractor storage (jobs_for num_jobs ex) ex
    = (written, Ok computed) ->
  trim_to_supervisions computed false None false = Ok trimmed ->
  to_file trimmed cuts_path = Written ->
  cuts_path = path_join output_dir (cuts_filename partition) /\
  raised r = Ok tt /\
  events r = [Logged (LogProcessing partition); FromManifests partition;
              ComputeFeatures partition storage (jobs_for num_jobs ex);
              Trim partition false None false; ToFile cuts_path] /\
  final_fs r !! cuts_path = Some (CutsFile trimmed) /\
  forall extractor' num_jobs' ex' m',
    process_partition output_dir extractor' num_jobs' ex' (partition, m') (final_fs r)
      = (final_fs r, [Logged (LogSkip partition)], Ok tt).
Proof.
  intros cuts_path storage r Habs Hrec Hsup Hfrom Hcomp Htrim Hwrite.
  assert (Hpath : cuts_path = path_join output_dir (cuts_filename partition)).
  { reflexivity. }
  split; [done|]. subst r. clearbody cuts_path. subst cuts_path.
  rewrite (process_partition_run output_dir extractor num_jobs ex partition m fs
             recordings supervisions cuts computed trimmed written
             Habs Hrec Hsup Hfrom Hcomp Htrim Hwrite).
  unfold raised, events, final_fs. cbn [fst snd].
  split; [done|]. split; [done|].
  split; [by rewrite lookup_insert_eq|].
  intros extractor' num_jobs' ex' m'.
  apply process_partition_skip. rewrite lookup_insert_eq. by eexists.
Qed.

Lemma script_unfold (args : Args) (fs : FS) :
  script args fs =
    (final_fs (compute_fbank_mucs args (bpe_model args) (dataset args) fs),
     Logged (LogArgs args)
       :: events (compute_fbank_mucs args (bpe_model args) (dataset args) fs),
     raised (compute_fbank_mucs args (bpe_model args) (dataset args) fs)).
Proof.
  unfold script. rewrite io_bind_unfold.
  unfold logging_info, io_emit, raised, final_fs, events. by cbn [fst snd app].
Qed.

Lemma compute_fbank_mucs_reads_all (args : Args) (bpe dset : option string) (fs : FS) :
  Forall reads_all_parts (events (compute_fbank_mucs args bpe dset fs)).
Proof.
  destruct (compute_fbank_mucs_shape args bpe dset)
    as [(t & e & Ht & Hstop)|(src_dir & output_dir & c & manifests & _ & _ & _
                                & _ & _ & _ & Hrun)].
  - rewrite Hstop. unfold events; cbn [fst snd].
    eapply Forall_impl; [exact Ht|]. by intros ev [_ Hev].
  - rewrite Hrun. unfold events at 1; cbn [fst snd].
    apply Forall_app. split.
    { unfold bpe_events. destruct (truthy bpe); by repeat constructor. }
    constructor; [done|].
    apply partition_loop_events. intros item fs'.
    eapply Forall_impl; [apply process_partition_events|].
    intros ev [Hev _]. by destruct ev.
Qed.

(** C8. [--dataset] is never read: [compute_fbank_mucs] is the same
    function of the directory for any two values of its [dataset]
    parameter and of the [dataset] attribute of the global [args]; two runs
    of the script that differ in [--dataset] only leave the same directory,
    end the same way and perform the same events after the record of the
    command line itself; and every read of the manifests asks for [train],
    [test] and [dev]. *)
Theorem dataset_inert (args : Args) (d : option string) (fs : FS) :
  (forall bpe d1 d2,
     compute_fbank_mucs (with_dataset d args) bpe d1 fs
       = compute_fbank_mucs args bpe d2 fs) /\
  final_fs (script (with_dataset d args) fs) = final_fs (script args fs) /\
  raised (script (with_dataset d args) fs) = raised (script args fs) /\
  (exists t,
     events (script (with_dataset d args) fs)
       = Logged (LogArgs (with_dataset d args)) :: t /\
     events (script args fs) = Logged (LogArgs args) :: t) /\
  Forall reads_all_parts (events (script args fs)).
Proof.
  split; [reflexivity|].
  rewrite !script_unfold. unfold final_fs at 1 3, raised at 1 3, events at 1 2 4.
  cbn [fst snd].
  split; [reflexivity|]. split; [reflexivity|].
  split; [by eexists|].
  constructor; [done|]. apply compute_fbank_mucs_reads_all.
Qed.

Lemma without_bpe_events (bpe : option string) (t : list event) :
  without_bpe_loading (bpe_events bpe ++ t) = without_bpe_loading t.
Proof. unfold bpe_events. by destruct (truthy bpe). Qed.

Lemma compute_fbank_mucs_bpe (args : Args) (bpe dset : option string) (fs : FS) :
  match truthy bpe with Some path => spm_load path = Ok tt | None => True end ->
  final_fs (compute_fbank_mucs args bpe dset fs)
    = final_fs (compute_fbank_mucs args None dset fs) /\
  raised (compute_fbank_mucs args bpe dset fs)
    = raised (compute_fbank_mucs args None dset fs) /\
  without_bpe_loading (events (compute_fbank_mucs args bpe dset fs))
    = without_bpe_loading (events (compute_fbank_mucs args None dset fs)).
Proof.
  intros Hload. unfold compute_fbank_mucs, load_bpe.
  destruct (manifestpath args) as [src_dir|]; [|done].
  destruct (fbankpath args) as [output_dir|]; [|done].
  destruct os_cpu_count as [c|]; [|done].
  cbn [truthy].
  destruct (truthy bpe) as [path|]; [|done].
  unfold io_bind, io_lift, io_ret, io_emit, io_raise, logging_info. simpl.
  rewrite Hload.
  destruct (read_manifests_if_cached dataset_parts src_dir prefix suffix)
    as [[manifests|]|e]; [|done|done].
  destruct (length manifests =? _)%nat; [|done].
  by destruct (partition_loop _ _ _ _ _ _) as [[fs' t'] res].
Qed.

(** C9, as the code has it.  For two values of [--bpe-model] that are each
    absent, empty or a model that loads, the calls leave the same
    directory, end the same way and perform the same events apart from the
    loading of the tokenizer; nothing filters a cut set in either. *)
Theorem bpe_model_inert (args : Args) (b1 b2 dset : option string) (fs : FS) :
  match truthy b1 with Some path => spm_load path = Ok tt | None => True end ->
  match truthy b2 with Some path => spm_load path = Ok tt | None => True end ->
  final_fs (compute_fbank_mucs args b1 dset fs)
    = final_fs (compute_fbank_mucs args b2 dset fs) /\
  raised (compute_fbank_mucs args b1 dset fs)
    = raised (compute_fbank_mucs args b2 dset fs) /\
  without_bpe_loading (events (compute_fbank_mucs args b1 dset fs))
    = without_bpe_loading (events (compute_fbank_mucs args b2 dset fs)).
Proof.
  intros H1 H2.
  destruct (compute_fbank_mucs_bpe args b1 dset fs H1) as (F1 & R1 & E1).
  destruct (compute_fbank_mucs_bpe args b2 dset fs H2) as (F2 & R2 & E2).
  by rewrite F1, F2, R1, R2, E1, E2.
Qed.

(** *** The completion marker *)

Lemma process_partition_starts (output_dir : string) (extractor : FbankConfig)
      (num_jobs : Z) (ex : option Executor) (partition : string)
      (m : gmap string Manifest) (fs : FS) :
  fs !! path_join output_dir (cuts_filename partition) = None ->
  exists t,
    events (process_partition output_dir extractor num_jobs ex (partition, m) fs)
      = Logged (LogProcessing partition) :: t.
Proof.
  intros Habs. unfold_partition.
  rewrite bool_decide_eq_false_2 by (rewrite Habs; by intros [? ?]).
  repeat case_match; simplify_eq; unfold events; simpl; by eexists.
Qed.

Lemma process_partition_order (output_dir : string) (extractor : FbankConfig)
      (num_jobs : Z) (ex : option Executor) (partition : string)
      (m : gmap string Manifest) (fs : FS) :
  let cuts_path := path_join output_dir (cuts_filename partition) in
  let r := process_partition output_dir extractor num_jobs ex (partition, m) fs in
  fs !! cuts_path = None ->
  events r = [Logged (LogProcessing partition); FromManifests partition;
              ComputeFeatures partition (storage_path output_dir partition)
                              (jobs_for num_jobs ex);
              Trim partition false None false; ToFile cuts_path] \/
  (Forall (fun ev => writes_to cuts_path ev = false) (events r) /\
   exists e, raised r = Raise e).
Proof.
  intros cuts_path r Habs. subst r. unfold_partition. fold cuts_path.
  rewrite bool_decide_eq_false_2 by (rewrite Habs; by intros [? ?]).
  repeat case_match; simplify_eq; unfold events, raised; simpl;
    first [by left | right; split; [by repeat constructor | by eexists]].
Qed.

(** C10. For a partition whose artifact is absent: the events of its step
    are either the whole sequence, log, cut set, feature computation,
    trimming, [to_file] on the artifact path as the last one, or they hold
    no [to_file] on that path and the step raised.  In the second case the
    artifact is still absent afterwards and a later step for the partition
    processes it instead of skipping it.  For a whole call too, an
    artifact absent at the start and not written by [to_file] is absent
    at the end. *)
Theorem marker_written_last (output_dir : string) (extractor : FbankConfig)
        (num_jobs : Z) (ex : option Executor) (partition : string)
        (m : gmap string Manifest) (fs : FS) :
  let cuts_path := path_join output_dir (cuts_filename partition) in
  let r := process_partition output_dir extractor num_jobs ex (partition, m) fs in
  fs !! cuts_path = None ->
  (events r = [Logged (LogProcessing partition); FromManifests partition;
               ComputeFeatures partition (storage_path output_dir partition)
                               (jobs_for num_jobs ex);
               Trim partition false None false; ToFile cuts_path] \/
   Forall (fun ev => writes_to cuts_path ev = false) (events r)) /\
  (Forall (fun ev => writes_to cuts_path ev = false) (events r) ->
   (exists e, raised r = Raise e) /\
   final_fs r !! cuts_path = None /\
   forall extractor' num_jobs' ex' m',
   exists t,
     events (process_partition output_dir extractor' num_jobs' ex'
                               (partition, m') (final_fs r))
       = Logged (LogProcessing partition) :: t) /\
  (forall (args : Args) (bpe dset : option string) (fs0 : FS),
     fbankpath args = Some output_dir ->
     fs0 !! cuts_path = None ->
     Forall (fun ev => writes_to cuts_path ev = false)
            (events (compute_fbank_mucs args bpe dset fs0)) ->
     final_fs (compute_fbank_mucs args bpe dset fs0) !! cuts_path = None).
Proof.
  intros cuts_path r Habs.
  pose proof (process_partition_order output_dir extractor num_jobs ex partition
                m fs Habs) as Horder. cbn zeta in Horder. fold cuts_path r in Horder.
  split; [destruct Horder as [?|[? _]]; [by left|by right]|].
  split.
  - intros Hquiet.
    assert (Hafter : final_fs r !! cuts_path = None).
    { by apply (process_partition_absent output_dir extractor num_jobs ex
                  (partition, m) fs partition). }
    split.
    + destruct Horder as [Hall|[_ He]]; [|done].
      rewrite Hall in Hquiet. rewrite !Forall_cons in Hquiet.
      destruct Hquiet as (_ & _ & _ & _ & Hw & _). simpl in Hw.
      by rewrite String.eqb_refl in Hw.
    + split; [done|]. intros extractor' num_jobs' ex' m'.
      by apply process_partition_starts.
  - intros args bpe dset fs0 Hout Habs0 Hquiet.
    destruct (compute_fbank_mucs_shape args bpe dset)
      as [(t & e & _ & Hstop)|(src_dir & output_dir' & c & manifests & _ & Hout'
                                 & _ & _ & _ & _ & Hrun)].
    + by rewrite Hstop.
    + rewrite Hout in Hout'. injection Hout' as <-.
      rewrite Hrun in Hquiet |- *.
      unfold events at 1 in Hquiet. unfold final_fs at 1. cbn [fst snd] in *.
      apply Forall_app in Hquiet as [_ Hquiet].
      apply Forall_cons in Hquiet as [_ Hquiet].
      by apply (partition_loop_absent output_dir _ _ _ manifests fs0 partition).
Qed.

End Facts.

(** *** The theorems at the stand-in *)

Import ComputeFbankMucsStub.

(** C5 as stated fails on two counts.  With the artifact of every partition
    in place, the call still reads the manifests of the three partitions
    before it skips them, and where no manifest is cached it stops on the
    assertion instead of skipping.  And a second run does feature
    computations when the first one did not return: where the computation
    of [test] raises, the first run writes the artifact of [train] and
    raises, and the second run skips [train] and computes [test] again. *)
Lemma skipped_partitions_are_loaded :
  events (compute_fbank_mucs (ext := stub) (stub_args None "manifests") None None
                             all_truncated)
    = [ReadManifests ["train"; "test"; "dev"] "manifests" "mucs" "jsonl.gz";
       Logged (LogSkip "train"); Logged (LogSkip "test"); Logged (LogSkip "dev")] /\
  compute_fbank_mucs (ext := stub) (stub_args None "elsewhere") None None
                     all_truncated
    = (all_truncated,
       [ReadManifests ["train"; "test"; "dev"] "elsewhere" "mucs" "jsonl.gz"],
       Raise (AssertionError "(len(manifests), len(dataset_parts), ...)")) /\
  raised (compute_fbank_mucs (ext := stub_with "test") (stub_args None "manifests")
                             None None ∅)
    = Raise (External "worker failed") /\
  events (compute_fbank_mucs (ext := stub_with "test") (stub_args None "manifests")
            None None
            (final_fs (compute_fbank_mucs (ext := stub_with "test")
                         (stub_args None "manifests") None None ∅)))
    = [ReadManifests ["train"; "test"; "dev"] "manifests" "mucs" "jsonl.gz";
       Logged (LogSkip "train"); Logged (LogProcessing "test");
       FromManifests "test"; ComputeFeatures "test" "fbank/mucs_feats_test" 8].
Proof. repeat split; vm_compute; reflexivity. Qed.

Lemma cache_idempotent_witness :
  raised (compute_fbank_mucs (ext := stub) (stub_args None "manifests") None None ∅)
    = Ok tt /\
  final_fs (compute_fbank_mucs (ext := stub) (stub_args None "manifests") None None
              (final_fs (compute_fbank_mucs (ext := stub)
                           (stub_args None "manifests") None None ∅)))
    = final_fs (compute_fbank_mucs (ext := stub) (stub_args None "manifests")
                                   None None ∅).
Proof.
  assert (Hok : raised (compute_fbank_mucs (ext := stub)
                          (stub_args None "manifests") None None ∅) = Ok tt)
    by (vm_compute; reflexivity).
  split; [exact Hok|].
  destruct (cache_idempotent (ext := stub) (stub_args None "manifests") None None ∅)
    as (_ & _ & Hsecond).
  destruct (Hsecond Hok) as [Hsame _]. exact Hsame.
Defined.


Lemma trimmed_cuts_persisted_witness :
  final_fs (process_partition (ext := stub) "fbank" {| num_mel_bins := 80 |} 8 None
                              ("train"%string, stub_manifest "train") ∅)
    !! "fbank/mucs_cuts_train.jsonl.gz"
  = Some (CutsFile "trim(fbank(cuts(recordings_train,supervisions_train)))").
Proof.
  destruct (trimmed_cuts_persisted (ext := stub) "fbank" {| num_mel_bins := 80 |}
              8 None "train" (stub_manifest "train") ∅
              "recordings_train" "supervisions_train"
              "cuts(recordings_train,supervisions_train)"
              "fbank(cuts(recordings_train,supervisions_train))"
              "trim(fbank(cuts(recordings_train,supervisions_train)))"
              (Some "feats(cuts(recordings_train,supervisions_train))"))
    as (_ & _ & _ & Hfile & _);
    [reflexivity | reflexivity | reflexivity | reflexivity | reflexivity
    | reflexivity | reflexivity |].
  exact Hfile.
Defined.

(** C9 as stated fails: a [--bpe-model] that does not load stops the call
    before any partition, where the call without [--bpe-model] writes the
    artifacts. *)
Lemma bpe_model_that_fails_to_load :
  compute_fbank_mucs (ext := stub) (stub_args None "manifests")
                     (Some "missing.model") None ∅
    = (∅, [Logged (LogLoading "missing.model"); SpLoad "missing.model"],
       Raise (External "Not found: missing.model")) /\
  raised (compute_fbank_mucs (ext := stub) (stub_args None "manifests") None None ∅)
    = Ok tt /\
  final_fs (compute_fbank_mucs (ext := stub) (stub_args None "manifests") None None ∅)
    !! "fbank/mucs_cuts_train.jsonl.gz"
  = Some (CutsFile "trim(fbank(cuts(recordings_train,supervisions_train)))").
Proof. repeat split; vm_compute; reflexivity. Qed.

Lemma bpe_model_inert_witness :
  spm_load (Externals := stub) "bpe.model" = Ok tt /\
  final_fs (compute_fbank_mucs (ext := stub) (stub_args None "manifests")
                               (Some "bpe.model") None ∅)
    = final_fs (compute_fbank_mucs (ext := stub) (stub_args None "manifests")
                                   None None ∅).
Proof.
  split; [reflexivity|].
  destruct (bpe_model_inert (ext := stub) (stub_args None "manifests")
              (Some "bpe.model") None None ∅) as (Hfs & _ & _);
    [reflexivity | exact I | exact Hfs].
Defined.

Lemma marker_written_last_witness :
  (exists e,
     raised (process_partition (ext := stub_with "test") "fbank"
                               {| num_mel_bins := 80 |} 8 None
                               ("test"%string, stub_manifest "test") ∅)
       = Raise e) /\
  final_fs (process_partition (ext := stub_with "test") "fbank"
                              {| num_mel_bins := 80 |} 8 None
                              ("test"%string, stub_manifest "test") ∅)
    !! "fbank/mucs_cuts_test.jsonl.gz" = None.
Proof.
  destruct (marker_written_last (ext := stub_with "test") "fbank"
              {| num_mel_bins := 80 |} 8 None "test" (stub_manifest "test") ∅)
    as (_ & Hfail & _); [reflexivity|].
  destruct Hfail as (Hraised & Habsent & _).
  - vm_compute. repeat constructor.
  - split; [exact Hraised | exact Habsent].
Defined.

End ComputeFbankMucsSpec.

(** ** More of [pretrained.py] *)

Module PretrainedExtra.
Import Pretrained PretrainedSetup PretrainedSpec PretrainedStub.

(** *** The parameter dictionary *)

Lemma vars_keys (a : Args) (k : string) (v : value) :
  vars a !! k = Some v ->
  k = "checkpoint"%string \/ k = "bpe_model"%string \/ k = "method"%string \/
  k = "sound_files"%string \/ k = "beam_size"%string.
Proof.
  unfold vars. intros H%elem_of_list_to_map_2.
  repeat (apply elem_of_cons in H as [H|H]; [simplify_eq; tauto|]).
  by apply elem_of_nil in H.
Qed.

(** X1. [params.update(vars(args))] overrides no key of [get_params]:
    whatever the command line, every parameter of [get_params] keeps its
    value, every option of the command line is in the dictionary, and the
    sample rate read by [main] is 16000. *)
Theorem update_keeps_constants (a : Args) :
  (forall k v, get_params_dict !! k = Some v -> params_dict a !! k = Some v) /\
  (forall k v, vars a !! k = Some v -> params_dict a !! k = Some v) /\
  params_dict a !! "sample_rate" = Some (VInt 16000) /\
  params_dict a !! "method" = Some (VStr (method a)) /\
  params_dict a !! "beam_size" = Some (VInt (beam_size a)) /\
  params_dict a !! "sound_files" = Some (VStrs (sound_files a)).
Proof.
  assert (Hconst : forall k v, get_params_dict !! k = Some v ->
                               params_dict a !! k = Some v).
  { intros k v Hk. unfold params_dict, dict_update.
    destruct (vars a !! k) as [v'|] eqn:Hv.
    - apply vars_keys in Hv.
      destruct Hv as [ -> | [ -> | [ -> | [ -> | -> ] ] ] ];
        vm_compute in Hk; discriminate.
    - by rewrite lookup_union_r. }
  assert (Hcli : forall k v, vars a !! k = Some v -> params_dict a !! k = Some v).
  { intros k v Hk. unfold params_dict, dict_update. by apply lookup_union_Some_l. }
  split; [exact Hconst|]. split; [exact Hcli|].
  split; [by apply Hconst|].
  repeat split; by apply Hcli.
Qed.

(** *** The model builders *)

(** X2. The networks [main] builds.  Before the tokenizer's sizes are
    stored in the parameters the decoder and the joiner cannot be built;
    once they are, [get_transducer_model] builds, for every command line,
    the encoder of [get_params] (80 features, 512 outputs, subsampling 4,
    12 layers), a decoder and a joiner whose dimensions meet the
    encoder's, and the joiner's output and the decoder's vocabulary are
    the tokenizer's vocabulary size. *)
Theorem transducer_shapes (a : Args) (blank_id vocab_size : Z) :
  get_decoder_model (params_dict a) = None /\
  get_joiner_model (params_dict a) = None /\
  get_transducer_model (params_dict a) = None /\
  exists m : TransducerModel,
    get_transducer_model (set_vocab (params_dict a) blank_id vocab_size) = Some m /\
    get_encoder_model (params_dict a) = Some (model_encoder m) /\
    model_encoder m =
      {| num_features := 80;
         conformer_output_dim := 512;
         conformer_subsampling_factor := 4;
         d_model := 512;
         conformer_nhead := 8;
         conformer_dim_feedforward := 2048;
         conformer_num_encoder_layers := 12;
         conformer_vgg_frontend := false |} /\
    decoder_output_dim (model_decoder m) = conformer_output_dim (model_encoder m) /\
    input_dim (model_joiner m) = conformer_output_dim (model_encoder m) /\
    joiner_output_dim (model_joiner m) = vocab_size /\
    decoder_vocab_size (model_decoder m) = vocab_size /\
    decoder_blank_id (model_decoder m) = blank_id /\
    embedding_dim (model_decoder m) = 1024 /\
    num_layers (model_decoder m) = 2 /\
    hidden_dim (model_decoder m) = 512.
Proof.
  split; [vm_compute; reflexivity|].
  split; [vm_compute; reflexivity|].
  split; [vm_compute; reflexivity|].
  eexists. split; [vm_compute; reflexivity|].
  split; [vm_compute; reflexivity|].
  repeat split.
Qed.

Section Facts.

Context `{ext : Externals}.

(** *** Waveform loading *)

Lemma read_sound_file_inv (expected : Z) (f : string) (w : list float) :
  outcome (read_sound_file expected f) = Ok w ->
  exists rest, torchaudio_load f = Ok (w :: rest, expected).
Proof.
  unfold read_sound_file. rewrite bind_emit. cbn [outcome snd].
  destruct (torchaudio_load f) as [[wave sr]|e]; [|done].
  rewrite bind_lift_ok.
  destruct (sr =? expected) eqn:Hsr; [|done].
  apply Z.eqb_eq in Hsr as ->.
  destruct wave as [|w0 rest]; [done|].
  intros [= <-]. by exists rest.
Qed.

Lemma read_sound_files_inv (files : list string) (expected : Z)
      (waves : list (list float)) :
  outcome (read_sound_files files expected) = Ok waves ->
  Forall2 (fun f w => exists rest, torchaudio_load f = Ok (w :: rest, expected))
          files waves.
Proof.
  revert waves. induction files as [|f files IH]; intros waves; simpl.
  - intros [= <-]. constructor.
  - rewrite outcome_bind.
    destruct (outcome (read_sound_file expected f)) as [w|e] eqn:Hf; [|done].
    rewrite outcome_bind.
    destruct (outcome (read_sound_files files expected)) as [ws|e] eqn:Hfs; [|done].
    simpl. intros [= <-]. constructor; [by apply read_sound_file_inv|by apply IH].
Qed.

(** X3. [read_sound_files] returns exactly when every file loads at the
    expected rate with at least one channel, and what it returns is then
    the first channel of each file in the order of the names, after one
    load per name; on no name at all it returns the empty list without a
    load. *)
Theorem read_sound_files_returns (files : list string) (expected : Z)
        (waves : list (list float)) :
  (outcome (read_sound_files files expected) = Ok waves <->
   Forall2 (fun f w => exists rest, torchaudio_load f = Ok (w :: rest, expected))
           files waves) /\
  (outcome (read_sound_files files expected) = Ok waves ->
   length waves = length files /\
   trace (read_sound_files files expected) = map TorchaudioLoad files) /\
  read_sound_files [] expected = ([], Ok []).
Proof.
  split; [|split; [|done]].
  - split; [apply read_sound_files_inv|].
    intros Hall. by rewrite (read_sound_files_ok _ _ _ Hall).
  - intros Hok. apply read_sound_files_inv in Hok as Hall.
    split; [symmetry; by eapply Forall2_length|].
    by rewrite (read_sound_files_ok _ _ _ Hall).
Qed.

(** X4. [read_sound_files] stops at the first file it cannot accept: either
    it returns after loading every file, or there is a first file whose
    step raises, the files before it were loaded and accepted, the
    exception is that file's, and no file after it is opened. *)
Theorem read_sound_files_stops (files : list string) (expected : Z) :
  (exists waves,
     read_sound_files files expected = (map TorchaudioLoad files, Ok waves)) \/
  (exists (good : list string) (f : string) (rest : list string)
          (waves : list (list float)) (e : exn),
     files = good ++ f :: rest /\
     read_sound_files good expected = (map TorchaudioLoad good, Ok waves) /\
     outcome (read_sound_file expected f) = Raise e /\
     read_sound_files files expected
       = (map TorchaudioLoad (good ++ [f]), Raise e)).
Proof.
  induction files as [|f files IH].
  - left. by exists [].
  - destruct (outcome (read_sound_file expected f)) as [w|e] eqn:Hf.
    + apply read_sound_file_inv in Hf as [rest0 Hload].
      destruct IH as [[waves Hok]|(good & g & rest & waves & e & -> & Hgood & Hg & Hall)].
      * left. exists (w :: waves). simpl.
        rewrite (read_sound_file_ok _ _ _ _ Hload), Hok. simpl.
        by rewrite app_nil_r.
      * right. exists (f :: good), g, rest, (w :: waves), e.
        split; [done|]. split.
        { simpl. rewrite (read_sound_file_ok _ _ _ _ Hload), Hgood. simpl.
          by rewrite app_nil_r. }
        split; [done|].
        simpl. by rewrite (read_sound_file_ok _ _ _ _ Hload), Hall.
    + right. exists [], f, files, [], e.
      split; [done|]. split; [done|]. split; [done|].
      simpl. rewrite (run_eta (read_sound_file expected f)), Hf.
      by rewrite read_sound_file_trace.
Qed.

(** *** The slice of the encoder output *)

(** X5. [encoder_out[i:i+1, :encoder_out_lens[i]]]: an index past the
    lengths raises [IndexError]; otherwise the slice is taken without an
    error, is empty when [i] is past the batch, and else holds one row, a
    prefix of row [i]: of [len_i] frames when [0 <= len_i <= T], the whole
    row when [len_i >= T], and the row without its last [-len_i] frames
    when [len_i] is negative. *)
Theorem encoder_out_slice_bounds (enc : Tensor3) (lens : list Z) (i : nat) :
  (lens !! i = None -> encoder_out_slice enc lens i = Raise IndexError) /\
  (forall len_i : Z,
     lens !! i = Some len_i ->
     exists e : Tensor3,
       encoder_out_slice enc lens i = Ok e /\
       ((batch_size enc <= i)%nat -> t3_data e = []) /\
       (forall row : list (list float),
          t3_data enc !! i = Some row ->
          t3_data e = [slice_to row len_i] /\
          slice_to row len_i `prefix_of` row /\
          (0 <= len_i <= Z.of_nat (length row) ->
           length (slice_to row len_i) = Z.to_nat len_i) /\
          (Z.of_nat (length row) <= len_i -> slice_to row len_i = row) /\
          (len_i < 0 ->
           length (slice_to row len_i) = (length row - Z.to_nat (- len_i))%nat))).
Proof.
  split.
  { intros Hnone. unfold encoder_out_slice. by rewrite Hnone. }
  intros len_i Hlen. unfold encoder_out_slice. rewrite Hlen.
  eexists. split; [reflexivity|]. cbn [t3_data].
  split.
  { intros Hge. unfold batch_size in Hge. by rewrite drop_ge. }
  intros row Hrow. rewrite (drop_S _ _ _ Hrow). cbn [take map].
  split; [by rewrite take_0|].
  unfold slice_to, py_stop.
  split; [apply prefix_take|].
  split; [|split].
  - intros [Hlo Hhi]. rewrite length_take.
    destruct (len_i <? 0) eqn:Hneg; [apply Z.ltb_lt in Hneg; lia|]. lia.
  - intros Hge. apply take_ge.
    destruct (len_i <? 0) eqn:Hneg; [apply Z.ltb_lt in Hneg; lia|]. lia.
  - intros Hneg. rewrite length_take.
    apply Z.ltb_lt in Hneg as Hneg'. rewrite Hneg'. lia.
Qed.

(** *** The layout of the transcript *)

(** X6. The transcript pairs names and hypotheses with [zip]: it holds one
    block per pair, as many as the shorter of the two lists has entries,
    and what either list holds beyond that is left out without an error;
    with no name or no hypothesis it is the single line feed. *)
Theorem transcript_zip (files : list string) (hyps : list (list string)) :
  let n := Nat.min (length files) (length hyps) in
  transcript files hyps
    = nl +:+ foldr String.append EmptyString (zip_with block files hyps) /\
  length (zip_with block files hyps) = n /\
  transcript files hyps = transcript (take n files) (take n hyps) /\
  transcript [] hyps = nl /\
  transcript files [] = nl.
Proof.
  intros n.
  assert (Hzip : forall (fs : list string) (hs : list (list string)),
             zip_with block fs hs
             = zip_with block (take (Nat.min (length fs) (length hs)) fs)
                        (take (Nat.min (length fs) (length hs)) hs)).
  { induction fs as [|f fs IH]; intros [|h hs]; simpl; try done.
    by rewrite <- IH. }
  split; [apply transcript_blocks|].
  split; [by rewrite length_zip_with|].
  split.
  { rewrite !transcript_blocks. subst n. by rewrite <- Hzip. }
  split; [done|].
  rewrite transcript_blocks. by destruct files.
Qed.

(** *** The decoding loop *)

Lemma decode_loop_trace (params : Params) (sp : SentencePieceProcessor)
      (model : Transducer) (enc : Tensor3) (lens : list Z)
      (indices : list nat) (hyps : list (list string)) :
  Forall (fun ev => is_decoding ev = true)
         (trace (decode_loop params sp model enc lens indices hyps)).
Proof.
  revert hyps. induction indices as [|i indices IH]; intros hyps; simpl;
    [constructor|].
  rewrite trace_bind. apply Forall_app. split.
  - unfold decode_one, encoder_out_slice, dispatch.
    destruct (lens !! i); [|constructor].
    rewrite bind_lift_ok.
    destruct (String.eqb _ "greedy_search");
      [|destruct (String.eqb _ "beam_search")]; by repeat constructor.
  - destruct (outcome (decode_one _ _ _ _ _ i)); [apply IH|constructor].
Qed.

(** X7. With the lengths of all its indices in range, the decoding loop
    under [greedy_search] runs greedy search and then the detokenizer once
    per index, in index order, never beam search, and appends the words of
    each index to the list; under [beam_search] it does the same with beam
    search and the beam size of the command line, never greedy search. *)
Theorem decode_loop_strategy (params : Params) (sp : SentencePieceProcessor)
        (model : Transducer) (enc : Tensor3) (lens : list Z)
        (indices : list nat) (hyps : list (list string)) :
  Forall (fun i => is_Some (lens !! i)) indices ->
  (method (cli params) = "greedy_search" ->
   decode_loop params sp model enc lens indices hyps =
     (concat (map (fun i => [GreedySearch i; SpDecode i]) indices),
      Ok (hyps ++
          map (fun i => match encoder_out_slice enc lens i with
                        | Ok e => str_split (sp_decode sp (greedy_search model e))
                        | Raise _ => []
                        end) indices))) /\
  (method (cli params) = "beam_search" ->
   decode_loop params sp model enc lens indices hyps =
     (concat (map (fun i => [BeamSearch i; SpDecode i]) indices),
      Ok (hyps ++
          map (fun i => match encoder_out_slice enc lens i with
                        | Ok e => str_split (sp_decode sp
                                    (beam_search model e (beam_size (cli params))))
                        | Raise _ => []
                        end) indices))).
Proof.
  intros Hall. split; intros Hm; revert hyps;
    (induction Hall as [|i indices Hi _ IH]; intros hyps; simpl;
     [by rewrite app_nil_r|]);
    rewrite (decode_one_ok params sp model enc lens i) by (auto || done);
    cbn [bind]; rewrite IH; unfold hyp_of, search; rewrite Hm; simpl;
    by rewrite <- app_assoc.
Qed.

(** *** The whole of [main] *)

(** Where [main] can stop, and what it has done by then. *)
Lemma main_cases (args : Args) :
  let params := params_update get_params args in
  main args =
    match spm_load (bpe_model args) with
    | Raise e => ([], Raise e)
    | Ok sp =>
        match load_model sp params (checkpoint args) with
        | Raise e =>
            ([Logged (LogParams params); Logged LogDevice;
              Logged (LogText "Creating model")], Raise e)
        | Ok model =>
            let r := read_sound_files (sound_files args) 16000 in
            let head :=
              [Logged (LogParams params); Logged LogDevice;
               Logged (LogText "Creating model");
               Logged (LogText "Constructing Fbank computer");
               Logged (LogReading (sound_files args))] ++ trace r in
            match outcome r with
            | Raise e => (head, Raise e)
            | Ok waves =>
                match batch_features (fbank waves) with
                | Raise e =>
                    (head ++ [Logged (LogText "Decoding started");
                              FbankCall (length waves)], Raise e)
                | Ok (padded, lens) =>
                    let enc := encoder model padded lens in
                    let loop := decode_loop params sp model enc.1 enc.2
                                            (seq 0 (batch_size enc.1)) [] in
                    (head ++ [Logged (LogText "Decoding started");
                              FbankCall (length waves); EncoderCall]
                       ++ trace loop
                       ++ match outcome loop with
                          | Ok hyps =>
                              [Logged (LogTranscripts
                                         (transcript (sound_files args) hyps));
                               Logged (LogText "Decoding Done")]
                          | Raise _ => []
                          end,
                     match outcome loop with Ok _ => Ok tt | Raise e => Raise e end)
                end
            end
        end
    end.
Proof.
  intros params.
  destruct (spm_load (bpe_model args)) as [sp|e1] eqn:Hsp.
  2:{ unfold main. cbn [cli params_update]. by rewrite Hsp. }
  destruct (load_model sp params (checkpoint args)) as [model|e2] eqn:Hmodel.
  2:{ unfold main, logging_info. fold params. cbn [cli params_update params].
      rewrite Hsp, bind_lift_ok, !bind_emit. cbn [trace outcome fst snd].
      by rewrite Hmodel. }
  cbn zeta.
  pose proof (run_eta (read_sound_files (sound_files args) 16000)) as Heta.
  destruct (outcome (read_sound_files (sound_files args) 16000))
    as [waves|e3] eqn:Hread.
  2:{ unfold main, logging_info. fold params. cbn [cli consts params_update params].
      rewrite Hsp, bind_lift_ok, !bind_emit. cbn [trace outcome fst snd].
      rewrite Hmodel, bind_lift_ok, !bind_emit. cbn [trace outcome fst snd].
      change (sample_rate get_params) with 16000. rewrite Heta.
      by cbn [bind]. }
  destruct (batch_features (fbank waves)) as [[padded lens]|e4] eqn:Hbatch.
  - rewrite (main_unfold args sp model _ waves padded lens Hsp Hmodel Heta Hbatch).
    fold params. f_equal; by rewrite <- ?app_assoc.
  - unfold main, logging_info. fold params. cbn [cli consts params_update params].
    rewrite Hsp, bind_lift_ok, !bind_emit. cbn [trace outcome fst snd].
    rewrite Hmodel, bind_lift_ok, !bind_emit. cbn [trace outcome fst snd].
    change (sample_rate get_params) with 16000. rewrite Heta.
    cbn [bind]. rewrite !bind_emit. cbn [trace outcome fst snd].
    rewrite Hbatch. cbn [lift bind]. f_equal; by rewrite <- ?app_assoc.
Qed.

Lemma bind_ext {E A B} (m : run E A) (k1 k2 : A -> run E B) :
  (forall a, k1 a = k2 a) -> bind m k1 = bind m k2.
Proof. intros Hk. destruct m as [t [a|e]]; simpl; [by rewrite Hk|done]. Qed.

Lemma decode_loop_greedy_params (p1 p2 : Params) (sp : SentencePieceProcessor)
      (model : Transducer) (enc : Tensor3) (lens : list Z)
      (indices : list nat) (hyps : list (list string)) :
  method (cli p1) = "greedy_search" ->
  method (cli p2) = "greedy_search" ->
  decode_loop p1 sp model enc lens indices hyps
    = decode_loop p2 sp model enc lens indices hyps.
Proof.
  intros H1 H2. revert hyps.
  induction indices as [|i indices IH]; intros hyps; simpl; [done|].
  unfold decode_one, dispatch. rewrite H1, H2.
  apply bind_ext. intros h. apply IH.
Qed.

(** X8. [--beam-size] is used only when [--method] is [beam_search]: under
    [greedy_search], and with a model that is built the same for both
    values, two runs that differ in [--beam-size] only end the same way,
    log the same transcripts and perform the same events apart from the
    record of the parameters, which spells the command line out. *)
Theorem beam_size_unused (args : Args) (b : Z) :
  method args = "greedy_search" ->
  (forall sp,
     load_model sp (params_update get_params (with_beam_size b args)) (checkpoint args)
     = load_model sp (params_update get_params args) (checkpoint args)) ->
  outcome (main (with_beam_size b args)) = outcome (main args) /\
  without_params_log (trace (main (with_beam_size b args)))
    = without_params_log (trace (main args)) /\
  transcripts_logged (trace (main (with_beam_size b args)))
    = transcripts_logged (trace (main args)).
Proof.
  intros Hm Hmodel. rewrite !main_cases. cbn zeta.
  cbn [with_beam_size bpe_model checkpoint sound_files].
  destruct (spm_load (bpe_model args)) as [sp|e1]; [|done].
  rewrite Hmodel.
  destruct (load_model sp _ (checkpoint args)) as [model|e2]; [|done].
  destruct (outcome (read_sound_files (sound_files args) 16000)) as [waves|e3];
    [|done].
  destruct (batch_features (fbank waves)) as [[padded lens]|e4]; [|done].
  rewrite (decode_loop_greedy_params
             (params_update get_params (with_beam_size b args))
             (params_update get_params args)) by done.
  done.
Qed.

(** X9. One pass over the batch.  The trace of every run of [main] is a
    first part without feature extraction, encoder call or decoding,
    followed by nothing, or by the one feature extraction, on as many
    waves as there are files, or by that extraction, the one encoder call
    and then only decoding events and log records: the feature extractor
    and the encoder run at most once, after every file is loaded, and no
    file is loaded after them. *)
Theorem single_encoder_pass (args : Args) :
  exists pre post : list event,
    trace (main args) = pre ++ post /\
    Forall (fun ev => after_loading ev = false) pre /\
    (post = [] \/
     post = [FbankCall (length (sound_files args))] \/
     exists tail,
       post = FbankCall (length (sound_files args)) :: EncoderCall :: tail /\
       Forall (fun ev => after_encoder ev = true) tail).
Proof.
  rewrite main_cases. cbn zeta.
  destruct (spm_load (bpe_model args)) as [sp|e1].
  2:{ exists [], []. split; [done|]. split; [constructor|by left]. }
  destruct (load_model sp _ (checkpoint args)) as [model|e2].
  2:{ eexists _, []. split; [by rewrite app_nil_r|].
      split; [by repeat constructor|by left]. }
  pose proof (read_sound_files_trace (sound_files args) 16000) as Hloads.
  destruct (outcome (read_sound_files (sound_files args) 16000))
    as [waves|e3] eqn:Hread.
  2:{ eexists _, []. split; [by rewrite app_nil_r|]. split; [|by left].
      apply Forall_app. split; [by repeat constructor|done]. }
  assert (Hlen : length waves = length (sound_files args)).
  { apply read_sound_files_inv in Hread. symmetry. by eapply Forall2_length. }
  rewrite Hlen.
  set (pre := ([Logged (LogParams (params_update get_params args));
                Logged LogDevice; Logged (LogText "Creating model");
                Logged (LogText "Constructing Fbank computer");
                Logged (LogReading (sound_files args))]
                 ++ trace (read_sound_files (sound_files args) 16000))
                ++ [Logged (LogText "Decoding started")]).
  assert (Hpre : Forall (fun ev => after_loading ev = false) pre).
  { apply Forall_app. split; [|by repeat constructor].
    apply Forall_app. split; [by repeat constructor|done]. }
  destruct (batch_features (fbank waves)) as [[padded lens]|e4].
  - set (enc := encoder model padded lens).
    set (loop := decode_loop (params_update get_params args) sp model enc.1 enc.2
                             (seq 0 (batch_size enc.1)) []).
    set (report := match outcome loop with
                   | Ok hyps =>
                       [Logged (LogTranscripts (transcript (sound_files args) hyps));
                        Logged (LogText "Decoding Done")]
                   | Raise _ => []
                   end).
    exists pre, (FbankCall (length (sound_files args)) :: EncoderCall
                   :: trace loop ++ report).
    split.
    { cbn [trace fst]. subst pre. by rewrite <- !app_assoc. }
    split; [exact Hpre|].
    right. right. eexists. split; [reflexivity|].
    apply Forall_app. split.
    + eapply Forall_impl; [apply decode_loop_trace|].
      intros ev Hev. by destruct ev as [[]| | | | | |].
    + subst report. destruct (outcome loop); by repeat constructor.
  - exists pre, [FbankCall (length (sound_files args))].
    split.
    { cbn [trace fst]. subst pre. by rewrite <- !app_assoc. }
    split; [exact Hpre|].
    right. by left.
Qed.

(** X10. [main] raises what its steps raise and stops there.  A tokenizer
    that does not load stops the run before anything is logged; a model or
    checkpoint that does not load stops it after three records, before any
    sound file is opened; an exception of [read_sound_files] is the run's
    exception, and the trace ends with the loads; an exception of the
    decoding loop is the run's exception, and no transcript is logged. *)
Theorem main_raises (args : Args) (e : exn) :
  let params := params_update get_params args in
  (spm_load (bpe_model args) = Raise e -> main args = ([], Raise e)) /\
  (forall sp,
     spm_load (bpe_model args) = Ok sp ->
     load_model sp params (checkpoint args) = Raise e ->
     main args = ([Logged (LogParams params); Logged LogDevice;
                   Logged (LogText "Creating model")], Raise e)) /\
  (forall sp model,
     spm_load (bpe_model args) = Ok sp ->
     load_model sp params (checkpoint args) = Ok model ->
     outcome (read_sound_files (sound_files args) 16000) = Raise e ->
     main args =
       ([Logged (LogParams params); Logged LogDevice;
         Logged (LogText "Creating model");
         Logged (LogText "Constructing Fbank computer");
         Logged (LogReading (sound_files args))]
          ++ trace (read_sound_files (sound_files args) 16000), Raise e)) /\
  (forall sp model waves padded lens,
     spm_load (bpe_model args) = Ok sp ->
     load_model sp params (checkpoint args) = Ok model ->
     outcome (read_sound_files (sound_files args) 16000) = Ok waves ->
     batch_features (fbank waves) = Ok (padded, lens) ->
     let enc := encoder model padded lens in
     outcome (decode_loop params sp model enc.1 enc.2 (seq 0 (batch_size enc.1)) [])
       = Raise e ->
     outcome (main args) = Raise e /\ transcripts_logged (trace (main args)) = []).
Proof.
  intros params.
  split; [intros Hsp; by rewrite main_cases, Hsp|].
  split.
  { intros sp Hsp Hmodel. rewrite main_cases, Hsp. fold params. by rewrite Hmodel. }
  split.
  { intros sp model Hsp Hmodel Hread. rewrite main_cases, Hsp. fold params.
    rewrite Hmodel. cbn zeta. by rewrite Hread. }
  intros sp model waves padded lens Hsp Hmodel Hread Hbatch enc Hloop.
  rewrite main_cases, Hsp. fold params. rewrite Hmodel. cbn zeta.
  rewrite Hread, Hbatch. fold enc. cbn [outcome trace fst snd]. rewrite Hloop.
  split; [done|].
  pose proof (read_sound_files_trace (sound_files args) 16000) as Hloads.
  apply after_loading_false in Hloads as [_ Hloads].
  pose proof (decode_loop_trace params sp model enc.1 enc.2
                (seq 0 (batch_size enc.1)) []) as Hdec.
  unfold transcripts_logged in *.
  rewrite !omap_app, Hloads. cbn [app omap list_omap]. rewrite app_nil_r.
  induction Hdec as [|ev t Hev _ IH]; [done|].
  by destruct ev as [[]| | | | | |].
Qed.

End Facts.

End PretrainedExtra.

(** *** The theorems of this part at the stand-in *)

Module PretrainedExtraWitness.
Import Pretrained PretrainedSetup PretrainedStub PretrainedExtra.

Lemma decode_loop_strategy_witness :
  decode_loop (ext := stub)
              (params_update get_params (run_args "greedy_search" ["a.wav"; "b.wav"]))
              tt tt
              {| t3_size1 := 3; t3_size2 := 1;
                 t3_data := [[[1%float]; [2%float]; [3%float]];
                             [[4%float]; [0%float]; [0%float]]] |}
              [3; 1] [0%nat; 1%nat] []
  = ([GreedySearch 0; SpDecode 0; GreedySearch 1; SpDecode 1],
     Ok [["three frames"%string]; ["one frame"%string]]).
Proof.
  destruct (decode_loop_strategy (ext := stub)
              (params_update get_params (run_args "greedy_search" ["a.wav"; "b.wav"]))
              tt tt
              {| t3_size1 := 3; t3_size2 := 1;
                 t3_data := [[[1%float]; [2%float]; [3%float]];
                             [[4%float]; [0%float]; [0%float]]] |}
              [3; 1] [0%nat; 1%nat] []) as [Hgreedy _].
  - repeat constructor; eexists; reflexivity.
  - rewrite (Hgreedy eq_refl). reflexivity.
Defined.

Lemma beam_size_unused_witness :
  outcome (main (ext := stub)
                (with_beam_size 9 (run_args "greedy_search" ["a.wav"; "b.wav"])))
    = outcome (main (ext := stub) (run_args "greedy_search" ["a.wav"; "b.wav"])) /\
  transcripts_logged
    (trace (main (ext := stub)
                 (with_beam_size 9 (run_args "greedy_search" ["a.wav"; "b.wav"]))))
    = transcripts_logged
        (trace (main (ext := stub) (run_args "greedy_search" ["a.wav"; "b.wav"]))).
Proof.
  destruct (beam_size_unused (ext := stub)
              (run_args "greedy_search" ["a.wav"; "b.wav"]) 9 eq_refl
              (fun _ => eq_refl)) as (Hout & _ & Hlog).
  split; [exact Hout | exact Hlog].
Defined.

End PretrainedExtraWitness.

(** ** More of [compute_fbank_mucs.py] *)

Module ComputeFbankMucsExtra.
Import ComputeFbankMucs ComputeFbankMucsSpec.

Section Facts.

Context `{ext : Externals}.

Local Abbreviation FS := (gmap string (file CutSet Blob)).

Ltac unfold_step :=
  unfold process_partition, io_bind, is_file, logging_info, io_emit, io_lift,
    do_compute, do_to_file.

(** *** Inputs the function cannot start without *)

(** X11. [--manifestpath] and [--fbankpath] have no default, and the CPU
    count may be unknown: when one of the three is [None] the function
    raises [TypeError] at once, with nothing logged, no tokenizer or
    manifest read and the directory untouched. *)
Theorem missing_inputs (args : Args) (bpe dset : option string) (fs : FS) :
  (manifestpath args = None \/ fbankpath args = None \/ os_cpu_count = None) ->
  compute_fbank_mucs args bpe dset fs = (fs, [], Raise TypeError).
Proof.
  intros Hnone. unfold compute_fbank_mucs.
  destruct (manifestpath args) as [src_dir|]; [|done].
  destruct (fbankpath args) as [output_dir|]; [|done].
  destruct os_cpu_count as [c|]; [|done].
  by destruct Hnone as [?|[?|?]].
Qed.

(** X12. The manifests are checked before any partition is touched: when
    [read_manifests_if_cached] raises, returns [None], or returns other
    than three partitions, the function raises (the reader's exception,
    or [AssertionError]) right after the read, and the directory is as it
    was. *)
Theorem manifests_checked (args : Args) (bpe dset : option string) (fs : FS)
        (src_dir output_dir : string) (c : Z) :
  manifestpath args = Some src_dir ->
  fbankpath args = Some output_dir ->
  os_cpu_count = Some c ->
  match truthy bpe with Some path => spm_load path = Ok tt | None => True end ->
  let stop (e : exn) :=
    (fs, bpe_events bpe ++ [ReadManifests dataset_parts src_dir prefix suffix],
     @Raise unit e) in
  (forall e,
     read_manifests_if_cached dataset_parts src_dir prefix suffix = Raise e ->
     compute_fbank_mucs args bpe dset fs = stop e) /\
  (read_manifests_if_cached dataset_parts src_dir prefix suffix = Ok None ->
   compute_fbank_mucs args bpe dset fs = stop (AssertionError EmptyString)) /\
  (forall manifests,
     read_manifests_if_cached dataset_parts src_dir prefix suffix
       = Ok (Some manifests) ->
     length manifests <> 3%nat ->
     compute_fbank_mucs args bpe dset fs
       = stop (AssertionError "(len(manifests), len(dataset_parts), ...)")).
Proof.
  intros Hsrc Hout Hcpu Hload stop. subst stop.
  unfold compute_fbank_mucs, load_bpe, bpe_events.
  rewrite Hsrc, Hout, Hcpu.
  assert (Hbpe : forall k : unit -> io unit,
             io_bind (match truthy bpe with
                      | Some path =>
                          io_bind (logging_info (LogLoading path))
                            (fun _ => io_bind (io_emit (SpLoad path))
                                        (fun _ => io_lift (spm_load path)))
                      | None => io_ret tt
                      end) k fs
             = (final_fs (k tt fs),
                match truthy bpe with
                | Some path => [Logged (LogLoading path); SpLoad path]
                | None => []
                end ++ events (k tt fs),
                raised (k tt fs))).
  { intros k. unfold io_bind, logging_info, io_emit, io_lift, io_ret,
      final_fs, events, raised.
    destruct (truthy bpe) as [path|]; [rewrite Hload|]; simpl;
      by destruct (k tt fs) as [[fs' t'] r]. }
  repeat split.
  - intros e Hread. unfold io_bind at 1 2 3, io_lift at 1 2 3, Path, num_jobs_of.
    rewrite Hbpe. unfold io_bind, io_emit, io_lift, final_fs, events, raised.
    by rewrite Hread.
  - intros Hread. unfold io_bind at 1 2 3, io_lift at 1 2 3, Path, num_jobs_of.
    rewrite Hbpe. unfold io_bind, io_emit, io_lift, io_raise, final_fs, events, raised.
    by rewrite Hread.
  - intros manifests Hread Hlen.
    unfold io_bind at 1 2 3, io_lift at 1 2 3, Path, num_jobs_of.
    rewrite Hbpe. unfold io_bind, io_emit, io_lift, io_raise, final_fs, events, raised.
    rewrite Hread. apply Nat.eqb_neq in Hlen. simpl. by rewrite Hlen.
Qed.

(** *** What a run leaves in the directory *)

Lemma process_partition_preserves (output_dir : string) (extractor : FbankConfig)
      (num_jobs : Z) (ex : option Executor)
      (item : string * gmap string Manifest) (fs : FS)
      (p : string) (content : file CutSet Blob) :
  fs !! path_join output_dir (cuts_filename p) = Some content ->
  final_fs (process_partition output_dir extractor num_jobs ex item fs)
    !! path_join output_dir (cuts_filename p) = Some content.
Proof.
  intros Hex. destruct item as [partition m]. unfold_step.
  pose proof (cuts_path_not_storage output_dir p partition) as Hne.
  destruct (bool_decide (is_Some (fs !! path_join output_dir (cuts_filename partition))))
    eqn:Hdone; [done|].
  apply bool_decide_eq_false_1 in Hdone.
  assert (Hother : path_join output_dir (cuts_filename partition)
                   <> path_join output_dir (cuts_filename p)).
  { intros Heq. apply Hdone. rewrite Heq, Hex. by eexists. }
  repeat case_match; simplify_eq; unfold final_fs; simpl;
    rewrite ?lookup_insert_ne by done; done.
Qed.

Lemma partition_loop_preserves (output_dir : string) (extractor : FbankConfig)
      (num_jobs : Z) (ex : option Executor)
      (manifests : list (string * gmap string Manifest)) (fs : FS)
      (p : string) (content : file CutSet Blob) :
  fs !! path_join output_dir (cuts_filename p) = Some content ->
  final_fs (partition_loop output_dir extractor num_jobs ex manifests fs)
    !! path_join output_dir (cuts_filename p) = Some content.
Proof.
  revert fs. induction manifests as [|item rest IH]; intros fs Hex; [done|].
  rewrite partition_loop_cons. cbn zeta.
  pose proof (process_partition_preserves output_dir extractor num_jobs ex item
                fs p content Hex) as Hstep.
  destruct (raised (process_partition _ _ _ _ item fs)); [|done].
  by apply IH.
Qed.

(** X13. An artifact that is in the output directory when the function
    starts is there, with the same content, when it ends, however the
    function ends: a run never rewrites or removes the artifact of a
    partition, not even one whose write was cut short. *)
Theorem artifacts_never_rewritten (args : Args) (bpe dset : option string)
        (fs : FS) (output_dir partition : string) (content : file CutSet Blob) :
  fbankpath args = Some output_dir ->
  fs !! path_join output_dir (cuts_filename partition) = Some content ->
  final_fs (compute_fbank_mucs args bpe dset fs)
    !! path_join output_dir (cuts_filename partition) = Some content.
Proof.
  intros Hout Hex.
  destruct (compute_fbank_mucs_shape args bpe dset)
    as [(t & e & _ & Hstop)|(src_dir & output_dir' & c & manifests & _ & Hout'
                               & _ & _ & _ & _ & Hrun)].
  - by rewrite Hstop.
  - rewrite Hout in Hout'. injection Hout' as <-.
    rewrite Hrun. unfold final_fs at 1. cbn [fst].
    by apply partition_loop_preserves.
Qed.

(** X14. When the function returns, the manifests were read for [train],
    [test] and [dev], there were three of them, and the artifact of each
    of their partitions is in the output directory. *)
Theorem returns_with_all_artifacts (args : Args) (bpe dset : option string)
        (fs : FS) :
  raised (compute_fbank_mucs args bpe dset fs) = Ok tt ->
  exists (src_dir output_dir : string)
         (manifests : list (string * gmap string Manifest)),
    manifestpath args = Some src_dir /\
    fbankpath args = Some output_dir /\
    read_manifests_if_cached ["train"; "test"; "dev"] src_dir "mucs" "jsonl.gz"
      = Ok (Some manifests) /\
    length manifests = 3%nat /\
    Forall (fun item =>
              is_Some (final_fs (compute_fbank_mucs args bpe dset fs)
                         !! path_join output_dir (cuts_filename item.1)))
           manifests.
Proof.
  intros Hok.
  destruct (compute_fbank_mucs_shape args bpe dset)
    as [(t & e & _ & Hstop)|(src_dir & output_dir & c & manifests & Hsrc & Hout
                               & _ & _ & Hread & Hlen & Hrun)].
  { by rewrite Hstop in Hok. }
  exists src_dir, output_dir, manifests.
  repeat (split; [done|]).
  rewrite Hrun in Hok |- *. unfold raised in Hok. unfold final_fs at 1.
  cbn [fst snd] in *. by apply partition_loop_marks.
Qed.

(** *** A manifest without one of its two kinds *)

(** X15. A partition to process whose manifest lacks [recordings], or has
    it and lacks [supervisions], raises [KeyError] on that key, the first
    one missing, right after the record that processing starts: no cut
    set is built, the directory is untouched, and the loop stops there
    without a step for the partitions that follow. *)
Theorem missing_manifest_kind (output_dir : string) (extractor : FbankConfig)
        (num_jobs : Z) (ex : option Executor) (partition : string)
        (m : gmap string Manifest)
        (rest : list (string * gmap string Manifest)) (fs : FS) (key : string) :
  fs !! path_join output_dir (cuts_filename partition) = None ->
  (m !! "recordings" = None /\ key = "recordings"%string) \/
  (is_Some (m !! "recordings") /\ m !! "supervisions" = None
   /\ key = "supervisions"%string) ->
  process_partition output_dir extractor num_jobs ex (partition, m) fs
    = (fs, [Logged (LogProcessing partition)], Raise (KeyError key)) /\
  partition_loop output_dir extractor num_jobs ex ((partition, m) :: rest) fs
    = (fs, [Logged (LogProcessing partition)], Raise (KeyError key)).
Proof.
  intros Habs Hkey.
  assert (Hstep : process_partition output_dir extractor num_jobs ex (partition, m) fs
                  = (fs, [Logged (LogProcessing partition)], Raise (KeyError key))).
  { unfold_step.
    rewrite bool_decide_eq_false_2 by (rewrite Habs; by intros [? ?]).
    unfold getitem.
    destruct Hkey as [[Hrec ->]|([r Hrec] & Hsup & ->)]; by rewrite ?Hrec, ?Hsup. }
  split; [done|].
  rewrite partition_loop_cons. cbn zeta. by rewrite Hstep.
Qed.

(** *** The loop, partition after partition *)

(** X16. The loop over two lists of partitions in a row is the loop over
    the first followed, when the first returns, by the loop over the
    second from the directory the first left; when the first raises,
    nothing is done for the second.  The artifacts of partitions the
    loop has got through stay in place whatever happens later. *)
Theorem partition_loop_app (output_dir : string) (extractor : FbankConfig)
        (num_jobs : Z) (ex : option Executor)
        (l1 l2 : list (string * gmap string Manifest)) (fs : FS) :
  let r1 := partition_loop output_dir extractor num_jobs ex l1 fs in
  let r := partition_loop output_dir extractor num_jobs ex (l1 ++ l2) fs in
  r = match raised r1 with
      | Ok _ =>
          let r2 := partition_loop output_dir extractor num_jobs ex l2 (final_fs r1) in
          (final_fs r2, events r1 ++ events r2, raised r2)
      | Raise e => (final_fs r1, events r1, Raise e)
      end /\
  (raised r1 = Ok tt ->
   Forall (fun item =>
             is_Some (final_fs r !! path_join output_dir (cuts_filename item.1)))
          l1).
Proof.
  cbn zeta.
  assert (Happ : forall l1 fs,
             partition_loop output_dir extractor num_jobs ex (l1 ++ l2) fs =
             match raised (partition_loop output_dir extractor num_jobs ex l1 fs) with
             | Ok _ =>
                 (final_fs (partition_loop output_dir extractor num_jobs ex l2
                              (final_fs (partition_loop output_dir extractor
                                           num_jobs ex l1 fs))),
                  events (partition_loop output_dir extractor num_jobs ex l1 fs)
                    ++ events (partition_loop output_dir extractor num_jobs ex l2
                                 (final_fs (partition_loop output_dir extractor
                                              num_jobs ex l1 fs))),
                  raised (partition_loop output_dir extractor num_jobs ex l2
                            (final_fs (partition_loop output_dir extractor
                                         num_jobs ex l1 fs))))
             | Raise e =>
                 (final_fs (partition_loop output_dir extractor num_jobs ex l1 fs),
                  events (partition_loop output_dir extractor num_jobs ex l1 fs),
                  Raise e)
             end).
  { clear l1 fs. induction l1 as [|item l1 IH]; intros fs.
    - simpl. unfold io_ret, raised, final_fs, events. cbn [fst snd app].
      by destruct (partition_loop _ _ _ _ l2 fs) as [[fs' t'] r'].
    - change ((item :: l1) ++ l2) with (item :: (l1 ++ l2)).
      rewrite !partition_loop_cons. cbn zeta.
      destruct (raised (process_partition _ _ _ _ item fs)) as [[]|e]; [|done].
      rewrite IH.
      destruct (raised (partition_loop _ _ _ _ l1 _)) as [[]|e'];
        unfold final_fs, events, raised; cbn [fst snd];
        [by rewrite app_assoc|done]. }
  split; [apply Happ|].
  intros Hok. rewrite Happ, Hok. unfold final_fs at 1. cbn [fst].
  pose proof (partition_loop_marks _ _ _ _ _ _ Hok) as Hmarks.
  eapply Forall_impl; [exact Hmarks|].
  intros item Hitem. by apply partition_loop_keeps.
Qed.

End Facts.

End ComputeFbankMucsExtra.

(** *** The theorems of this part at the stand-in *)

Module ComputeFbankMucsExtraWitness.
Import ComputeFbankMucs ComputeFbankMucsStub ComputeFbankMucsExtra.

Lemma missing_inputs_witness :
  compute_fbank_mucs (ext := stub)
                     {| bpe_model := Some "bpe.model"; dataset := None;
                        manifestpath := Some "manifests"; fbankpath := None |}
                     (Some "bpe.model") None all_truncated
  = (all_truncated, [], Raise TypeError).
Proof. apply (missing_inputs (ext := stub)). right. left. reflexivity. Defined.

Lemma manifests_checked_witness :
  compute_fbank_mucs (ext := stub) (stub_args None "elsewhere") (Some "bpe.model")
                     None all_truncated
  = (all_truncated,
     [Logged (LogLoading "bpe.model"); SpLoad "bpe.model";
      ReadManifests ["train"; "test"; "dev"] "elsewhere" "mucs" "jsonl.gz"],
     Raise (AssertionError "(len(manifests), len(dataset_parts), ...)")).
Proof.
  pose proof (manifests_checked (ext := stub) (stub_args None "elsewhere")
                (Some "bpe.model") None all_truncated "elsewhere" "fbank" 8
                eq_refl eq_refl eq_refl eq_refl) as H.
  cbv zeta in H. destruct H as (_ & _ & H).
  apply (H []); [reflexivity | discriminate].
Defined.

Lemma artifacts_never_rewritten_witness :
  all_truncated !! "fbank/mucs_cuts_train.jsonl.gz" = Some Truncated /\
  final_fs (compute_fbank_mucs (ext := stub_with "test") (stub_args None "manifests")
                               None None
                               (<["fbank/mucs_cuts_train.jsonl.gz" := Truncated]> ∅))
    !! "fbank/mucs_cuts_train.jsonl.gz" = Some Truncated.
Proof.
  split; [reflexivity|].
  apply (artifacts_never_rewritten (ext := stub_with "test")
           (stub_args None "manifests") None None
           (<["fbank/mucs_cuts_train.jsonl.gz" := Truncated]> ∅)
           "fbank" "train" Truncated); reflexivity.
Defined.

Lemma returns_with_all_artifacts_witness :
  exists manifests : list (string * gmap string string),
    length manifests = 3%nat /\
    Forall (fun item =>
              is_Some (final_fs (compute_fbank_mucs (ext := stub)
                                   (stub_args None "manifests") None None ∅)
                         !! path_join "fbank" (cuts_filename item.1)))
           manifests.
Proof.
  destruct (returns_with_all_artifacts (ext := stub) (stub_args None "manifests")
              None None ∅) as (src & out & ms & _ & Hout & _ & Hlen & Hall).
  - vm_compute. reflexivity.
  - injection Hout as <-. exists ms. split; [exact Hlen | exact Hall].
Defined.

Lemma missing_manifest_kind_witness :
  process_partition (ext := stub) "fbank" {| num_mel_bins := 80 |} 8 None
                    ("train"%string,
                     <["recordings" := "recordings_train"%string]> ∅) ∅
  = (∅, [Logged (LogProcessing "train")], Raise (KeyError "supervisions")).
Proof.
  destruct (missing_manifest_kind (ext := stub) "fbank" {| num_mel_bins := 80 |} 8
              None "train" (<["recordings" := "recordings_train"%string]> ∅) [] ∅
              "supervisions") as [Hstep _].
  - reflexivity.
  - right. split; [eexists; reflexivity|]. split; reflexivity.
  - exact Hstep.
Defined.

End ComputeFbankMucsExtraWitness.
